(** * A mock HTTP server for tests: model of [server.go]

    The Go package [server] wraps [net/http/httptest]: it records the GET and
    POST requests it receives under a key computed from the request, and
    answers with canned responses registered under the same keys.

    The development embeds the package as it is written:
    - a Go [map[string]V] is an [option (gmap string V)], [None] being the
      nil map of a zero-valued struct (reads of a nil map give the zero
      value, an assignment to an entry of a nil map panics);
    - a Go slice is a [list], the nil slice being [[]];
    - a method with a pointer receiver is a computation in a state monad
      with panics, the state being the [_Server] struct (and, for the
      handlers, the [http.ResponseWriter] they are given);
    - the parts of [net/http] the handlers call ([WriteHeader], [Header],
      [Write], [http.Error], [Request.FormFile], [ioutil.ReadAll]) are
      modelled after their documented contract. *)

From stdpp Require Import base option list strings gmap fin_maps.
From Stdlib Require Import ZArith.

Local Open Scope Z_scope.
Local Open Scope string_scope.
Local Open Scope list_scope.

(** ** Panics and the state monad *)

(** The two run-time panics this code can raise. *)
Inductive panic : Type :=
  | NilMapAssignment      (* "assignment to entry in nil map" *)
  | NilDereference.       (* "invalid memory address or nil pointer dereference" *)

Inductive result (A : Type) : Type :=
  | Ok (a : A)
  | Panic (p : panic).
Arguments Ok {A} a.
Arguments Panic {A} p.

(** A computation over a mutable state [Σ]. A panic keeps the state reached
    when it was raised: Go does not roll back the writes made before it. *)
Definition M (Σ A : Type) : Type := Σ → result A * Σ.

Definition ret {Σ A} (a : A) : M Σ A := λ σ, (Ok a, σ).

Definition bind {Σ A B} (m : M Σ A) (k : A → M Σ B) : M Σ B :=
  λ σ, match m σ with
       | (Ok a, σ') => k a σ'
       | (Panic p, σ') => (Panic p, σ')
       end.

Definition raise {Σ A} (p : panic) : M Σ A := λ σ, (Panic p, σ).
Definition get {Σ} : M Σ Σ := λ σ, (Ok σ, σ).
Definition put {Σ} (σ' : Σ) : M Σ () := λ _, (Ok (), σ').
Definition modify {Σ} (f : Σ → Σ) : M Σ () := λ σ, (Ok (), f σ).

Declare Scope go_scope.
Delimit Scope go_scope with go.
Notation "x <- m ;; k" := (bind m (λ x, k))
  (at level 100, m at next level, right associativity) : go_scope.
Notation "m ;;; k" := (bind m (λ _, k))
  (at level 100, right associativity) : go_scope.
Local Open Scope go_scope.

(** ** Go maps *)

Module GoMap.
Section gomap.
Context {V : Type}.

(** [m[k]] with the comma-ok form: the value and whether it is present.
    Reading a nil map is allowed and finds nothing. *)
Definition lookup (m : option (gmap string V)) (k : string) : option V :=
  match m with
  | None => None
  | Some m => m !! k
  end.

(** [m[k] = v]. *)
Definition assign (m : option (gmap string V)) (k : string) (v : V)
  : result (option (gmap string V)) :=
  match m with
  | None => Panic NilMapAssignment
  | Some m => Ok (Some (<[k:=v]> m))
  end.

(** The composite literal [map[string]V{}]. *)
Definition make : option (gmap string V) := Some ∅.
End gomap.
End GoMap.

(** ** The slice of [net/http] the handlers use *)

(** [http.Header]: canonical header name to its list of values. *)
Abbreviation Header := (gmap string (list string)).

Definition StatusOK : Z := 200.
Definition StatusNotFound : Z := 404.
Definition MethodGet : string := "GET".
Definition MethodPost : string := "POST".

(** A [multipart.File] opened by [FormFile]: what [ioutil.ReadAll] yields
    from it, the bytes read and the read error if there is one. *)
Record File : Type := mkFile {
  contents : string;
  readErr : option string;
}.

(** The body of a request as [Request.FormFile] sees it: either parsing it
    as multipart form data fails with an error, or it gives the uploaded
    files by field name. *)
Inductive FormData : Type :=
  | NotMultipart (err : string)
  | Multipart (files : gmap string (list File)).

(** [url.URL], with the fields this package reads or sets. *)
Record URL : Type := mkURL {
  Scheme : string;
  Host : string;
  Path : string;
  RawQuery : string;
}.

(** [http.Request]. The handlers store requests by value ([*r]). *)
Record Request : Type := mkRequest {
  Method : string;
  URL_ : URL;
  form : FormData;
}.

(** [http.ErrMissingFile]. *)
Definition ErrMissingFile : string := "http: no such file".

(** [r.FormFile(key)], returning the file and the error ([None] is nil):
    the error of the parse, the first file stored under [key], or
    [ErrMissingFile] when there is none. *)
Definition FormFile (r : Request) (key : string) : option File * option string :=
  match form r with
  | NotMultipart err => (None, Some err)
  | Multipart files =>
      match files !! key with
      | Some (f :: _) => (Some f, None)
      | _ => (None, Some ErrMissingFile)
      end
  end.

(** The state of the [http.ResponseWriter] of one request. [handlerHeader]
    is the map [w.Header()] returns. The first [WriteHeader] fixes the status
    and the headers of the response: [sentHeader] is the copy of the header
    map taken then, and "changing the header map after a call to WriteHeader
    (or Write) has no effect" on it. [written] is the body written so far. *)
Record ResponseWriter : Type := mkResponseWriter {
  handlerHeader : Header;
  wroteHeader : bool;
  status : Z;
  sentHeader : Header;
  written : string;
}.

(** The writer the server hands to the handler. *)
Definition newResponseWriter : ResponseWriter :=
  {| handlerHeader := ∅; wroteHeader := false; status := 0;
     sentHeader := ∅; written := EmptyString |}.

(** The line terminator [fmt.Fprintln] appends. *)
Definition newline : string := String (Ascii.ascii_of_nat 10) EmptyString.

Module Writer.
(** [w.WriteHeader(code)] for a final status code (this program only uses
    200, 404 and 500). A second call is superfluous and ignored. *)
Definition WriteHeader (code : Z) (w : ResponseWriter) : ResponseWriter :=
  if wroteHeader w then w
  else {| handlerHeader := handlerHeader w; wroteHeader := true;
          status := code; sentHeader := handlerHeader w;
          written := written w |}.

(** [w.Header().Add(key, value)], for a key in canonical form. *)
Definition HeaderAdd (key value : string) (w : ResponseWriter) : ResponseWriter :=
  {| handlerHeader :=
       <[key := default [] (handlerHeader w !! key) ++ [value]]> (handlerHeader w);
     wroteHeader := wroteHeader w; status := status w;
     sentHeader := sentHeader w; written := written w |}.

(** [w.Header().Set(key, value)], for a key in canonical form. *)
Definition HeaderSet (key value : string) (w : ResponseWriter) : ResponseWriter :=
  {| handlerHeader := <[key := [value]]> (handlerHeader w);
     wroteHeader := wroteHeader w; status := status w;
     sentHeader := sentHeader w; written := written w |}.

(** [w.Write(data)]: "if WriteHeader has not yet been called, Write calls
    WriteHeader(http.StatusOK) before writing the data". *)
Definition Write (data : string) (w : ResponseWriter) : ResponseWriter :=
  let w := WriteHeader StatusOK w in
  {| handlerHeader := handlerHeader w; wroteHeader := wroteHeader w;
     status := status w; sentHeader := sentHeader w;
     written := written w +:+ data |}.

(** [http.Error(w, error, code)]: sets the two headers, writes the status
    and prints the error text as a line ([fmt.Fprintln]). It "does not
    otherwise end the request". *)
Definition Error (error : string) (code : Z) (w : ResponseWriter) : ResponseWriter :=
  let w := HeaderSet "Content-Type" "text/plain; charset=utf-8" w in
  let w := HeaderSet "X-Content-Type-Options" "nosniff" w in
  let w := WriteHeader code w in
  Write (error +:+ newline) w.
End Writer.

(** [ioutil.ReadAll(f)] on the file [FormFile] returned. On a nil file the
    call of [Read] dereferences a nil interface. *)
Definition ReadAll {Σ} (f : option File) : M Σ (string * option string) :=
  match f with
  | None => raise NilDereference
  | Some f => ret (contents f, readErr f)
  end.

(** [httptest.Server]: its [URL] field and whether [Close] was called. *)
Record httptest_Server : Type := mkHttptestServer {
  httptest_URL : string;
  closed : bool;
}.

(** [Close] of [httptest.Server] closes the listener once; calling it again
    finds [closed] set and does nothing more. *)
Definition httptest_Close (srv : httptest_Server) : httptest_Server :=
  {| httptest_URL := httptest_URL srv; closed := true |}.

(** ** The server *)

Record _Response : Type := mkResponse {
  StatusCode : Z;
  Body : string;
}.

Record _Server : Type := mkServer {
  server : option httptest_Server;
  url : option URL;
  httpGETRequests : option (gmap string (list Request));
  httpGETResponses : option (gmap string _Response);
  httpPOSTRequests : option (gmap string (list Request));
  httpPOSTResponses : option (gmap string _Response);
}.

Definition set_httpGETRequests (m : option (gmap string (list Request))) (s : _Server) :=
  {| server := server s; url := url s;
     httpGETRequests := m; httpGETResponses := httpGETResponses s;
     httpPOSTRequests := httpPOSTRequests s; httpPOSTResponses := httpPOSTResponses s |}.
Definition set_httpGETResponses (m : option (gmap string _Response)) (s : _Server) :=
  {| server := server s; url := url s;
     httpGETRequests := httpGETRequests s; httpGETResponses := m;
     httpPOSTRequests := httpPOSTRequests s; httpPOSTResponses := httpPOSTResponses s |}.
Definition set_httpPOSTRequests (m : option (gmap string (list Request))) (s : _Server) :=
  {| server := server s; url := url s;
     httpGETRequests := httpGETRequests s; httpGETResponses := httpGETResponses s;
     httpPOSTRequests := m; httpPOSTResponses := httpPOSTResponses s |}.
Definition set_httpPOSTResponses (m : option (gmap string _Response)) (s : _Server) :=
  {| server := server s; url := url s;
     httpGETRequests := httpGETRequests s; httpGETResponses := httpGETResponses s;
     httpPOSTRequests := httpPOSTRequests s; httpPOSTResponses := m |}.
Definition set_server (srv : option httptest_Server) (u : option URL) (s : _Server) :=
  {| server := srv; url := u;
     httpGETRequests := httpGETRequests s; httpGETResponses := httpGETResponses s;
     httpPOSTRequests := httpPOSTRequests s; httpPOSTResponses := httpPOSTResponses s |}.

(** Lift the outcome of a map assignment into a computation. *)
Definition try {Σ A} (r : result A) : M Σ A :=
  match r with
  | Ok a => ret a
  | Panic p => raise p
  end.

(** [New]: the zero value of the struct, every pointer and map nil. *)
Definition New : _Server :=
  {| server := None; url := None;
     httpGETRequests := None; httpGETResponses := None;
     httpPOSTRequests := None; httpPOSTResponses := None |}.

(** [Close]; the value returned is the error, [None] for nil. *)
Definition Close : M _Server (option string) :=
  s <- get;;
  match server s with
  | None => ret None
  | Some srv =>
      put (set_server (Some (httptest_Close srv)) (url s) s);;;
      ret None
  end.

Definition GetGETRequests (key : string) (s : _Server) : list Request :=
  default [] (GoMap.lookup (httpGETRequests s) key).

Definition GetPOSTRequests (key : string) (s : _Server) : list Request :=
  default [] (GoMap.lookup (httpPOSTRequests s) key).

(** [Open]. [addr] is the address [httptest.NewServer] gets from the
    system for its listener (without one it panics and there is no server
    to speak of); the server's URL is ["http://" + addr], which [url.Parse]
    splits into scheme and host without error. *)
Definition Open (addr : string) : M _Server (option string) :=
  s <- get;;
  put (set_server
         (Some {| httptest_URL := "http://" +:+ addr; closed := false |})
         (Some {| Scheme := "http"; Host := addr;
                  Path := EmptyString; RawQuery := EmptyString |})
         s);;;
  ret None.

Definition Reset : M _Server () :=
  modify (set_httpGETResponses GoMap.make);;;
  modify (set_httpPOSTResponses GoMap.make);;;
  modify (set_httpGETRequests GoMap.make);;;
  modify (set_httpPOSTRequests GoMap.make).

Definition SetGETResponseBody (key responseBody : string) : M _Server () :=
  s <- get;;
  m <- try (GoMap.assign (httpGETResponses s) key
              {| StatusCode := StatusOK; Body := responseBody |});;
  put (set_httpGETResponses m s).

Definition SetPOSTResponseBody (key responseBody : string) : M _Server () :=
  s <- get;;
  m <- try (GoMap.assign (httpPOSTResponses s) key
              {| StatusCode := StatusOK; Body := responseBody |});;
  put (set_httpPOSTResponses m s).

(** [URL] dereferences [s.url], nil until [Open] has run. *)
Definition URL_of : M _Server URL :=
  s <- get;;
  match url s with
  | None => raise NilDereference
  | Some u => ret u
  end.

(** ** The handlers *)

(** A handler runs on the server struct and on the writer of its request. *)
Abbreviation HandlerState := (_Server * ResponseWriter)%type.

Definition onServer {A} (m : M _Server A) : M HandlerState A :=
  λ σ, match m σ.1 with (r, s') => (r, (s', σ.2)) end.

Definition onWriter (f : ResponseWriter → ResponseWriter) : M HandlerState () :=
  modify (λ σ, (σ.1, f σ.2)).

(** The built-in [append(l, x)]. *)
Definition append {A} (l : list A) (x : A) : list A := l ++ [x].

Definition handleGetRequest (r : Request) : M HandlerState () :=
  let key := Path (URL_ r) +:+ "?" +:+ RawQuery (URL_ r) in
  onServer (s <- get;;
            m <- try (GoMap.assign (httpGETRequests s) key
                        (append (default [] (GoMap.lookup (httpGETRequests s) key)) r));;
            put (set_httpGETRequests m s));;;
  σ <- get;;
  match GoMap.lookup (httpGETResponses σ.1) key with
  | None =>
      onWriter (Writer.WriteHeader StatusNotFound);;;
      onWriter (Writer.Write ("No httpGETResponse for '" +:+ key +:+ "'"))
  | Some response =>
      onWriter (Writer.WriteHeader (StatusCode response));;;
      onWriter (Writer.HeaderAdd "Content-Type" "application/json");;;
      onWriter (Writer.Write (Body response))
  end.

Definition handlePostRequest (r : Request) : M HandlerState () :=
  let f := (FormFile r "file").1 in
  let err := (FormFile r "file").2 in
  match err with
  | Some e => onWriter (Writer.Error e 500)
  | None => ret ()
  end;;;
  read <- ReadAll f;;
  let body := read.1 in
  let err := read.2 in
  match err with
  | Some e => onWriter (Writer.Error e 500)
  | None => ret ()
  end;;;
  let key := Path (URL_ r) +:+ "?" +:+ RawQuery (URL_ r) +:+ " " +:+ body in
  onServer (s <- get;;
            m <- try (GoMap.assign (httpPOSTRequests s) key
                        (append (default [] (GoMap.lookup (httpPOSTRequests s) key)) r));;
            put (set_httpPOSTRequests m s));;;
  σ <- get;;
  match GoMap.lookup (httpPOSTResponses σ.1) key with
  | None =>
      onWriter (Writer.WriteHeader StatusNotFound);;;
      onWriter (Writer.Write ("No httpPOSTResponse for '" +:+ key +:+ "'"))
  | Some response =>
      onWriter (Writer.WriteHeader (StatusCode response));;;
      onWriter (Writer.HeaderAdd "Content-Type" "application/json");;;
      onWriter (Writer.Write (Body response))
  end.

Definition handleRequest (r : Request) : M HandlerState () :=
  if decide (Method r = MethodGet) then handleGetRequest r
  else if decide (Method r = MethodPost) then handlePostRequest r
  else ret ().

(** ** What the client of one request receives *)

Module Wire.
(** The response as the HTTP client reads it. *)
Record Response : Type := mkResponse {
  code : Z;
  header : Header;
  payload : string;
}.

(** The server either completes a response or, when the handler panics,
    recovers the panic, logs it and closes the connection. *)
Inductive Reply : Type :=
  | Replied (resp : Response)
  | Aborted (p : panic).

(** When the handler returns the server finishes the request: a handler
    that wrote nothing gets an implicit [WriteHeader(200)]; the headers
    sent are those fixed when the status was written. *)
Definition finishRequest (w : ResponseWriter) : Response :=
  let w := Writer.WriteHeader StatusOK w in
  {| code := status w; header := sentHeader w; payload := written w |}.

(** The value of the [Content-Type] header on the wire. When the handler
    fixed none and the body is not empty, the server fills it in with
    [http.DetectContentType] of the body, here [detect]: the MIME sniffing
    of the WHATWG standard, which tells markup, text, images, archives and
    the like apart and has no rule for JSON. *)
Definition contentType (detect : string → string) (resp : Response) : option string :=
  match header resp !! "Content-Type" with
  | Some values => head values
  | None => if decide (payload resp = EmptyString) then None
            else Some (detect (payload resp))
  end.
End Wire.

(** One inbound request, served on a fresh writer. *)
Definition serve (r : Request) (s : _Server) : Wire.Reply * _Server :=
  match handleRequest r (s, newResponseWriter) with
  | (Ok _, σ) => (Wire.Replied (Wire.finishRequest σ.2), σ.1)
  | (Panic p, σ) => (Wire.Aborted p, σ.1)
  end.

(** The two request keys. *)
Definition getKey (r : Request) : string :=
  Path (URL_ r) +:+ "?" +:+ RawQuery (URL_ r).

Definition postKey (r : Request) (fileContents : string) : string :=
  Path (URL_ r) +:+ "?" +:+ RawQuery (URL_ r) +:+ " " +:+ fileContents.

(** ** Sequences of calls *)

(** What happens to a server over time: the test calls its methods and the
    listener hands inbound requests to [handleRequest]. *)
Inductive Call : Type :=
  | CallOpen (addr : string)
  | CallClose
  | CallReset
  | CallSetGET (key responseBody : string)
  | CallSetPOST (key responseBody : string)
  | Inbound (r : Request).

(** A panic in a handler is recovered by [net/http], which goes on serving;
    a panic in a method called by the test is the test's. *)
Definition call (c : Call) : M _Server () :=
  match c with
  | CallOpen addr => Open addr;;; ret ()
  | CallClose => Close;;; ret ()
  | CallReset => Reset
  | CallSetGET key responseBody => SetGETResponseBody key responseBody
  | CallSetPOST key responseBody => SetPOSTResponseBody key responseBody
  | Inbound r => modify (λ s, (serve r s).2)
  end.

Fixpoint run (cs : list Call) : M _Server () :=
  match cs with
  | [] => ret ()
  | c :: cs => call c;;; run cs
  end.

(** Inbound requests alone, one after the other. *)
Definition serveAll (rs : list Request) (s : _Server) : _Server :=
  foldl (λ s r, (serve r s).2) s rs.

(** ** States *)

(** The four mappings exist: [Reset] has run. *)
Definition initialized (s : _Server) : Prop :=
  is_Some (httpGETRequests s) ∧ is_Some (httpGETResponses s) ∧
  is_Some (httpPOSTRequests s) ∧ is_Some (httpPOSTResponses s).

(** The four mappings are nil, as in the zero value. *)
Definition uninitialized (s : _Server) : Prop :=
  httpGETRequests s = None ∧ httpGETResponses s = None ∧
  httpPOSTRequests s = None ∧ httpPOSTResponses s = None.

(** The key under which a POST request is recorded when its file can be
    opened, whatever the read then gives. *)
Definition recordedPostKey (r : Request) : option string :=
  match (FormFile r "file").1 with
  | Some f => Some (postKey r (contents f))
  | None => None
  end.

(** What one request adds to the requests captured under [k]: itself, if it
    is a GET with that key, and for the POST mapping if it is a POST
    recorded under that key. *)
Definition capturedGET (k : string) (r : Request) : list Request :=
  if decide (Method r = MethodGet ∧ getKey r = k) then [r] else [].

Definition capturedPOST (k : string) (r : Request) : list Request :=
  if decide (Method r = MethodPost ∧ recordedPostKey r = Some k) then [r] else [].

(** The writes that end both handlers, on the outcome of the lookup of the
    canned response: [miss] is the text of the 404. *)
Definition respond (miss : string) (found : option _Response) (w : ResponseWriter)
  : ResponseWriter :=
  match found with
  | None => Writer.Write miss (Writer.WriteHeader StatusNotFound w)
  | Some response =>
      Writer.Write (Body response)
        (Writer.HeaderAdd "Content-Type" "application/json"
           (Writer.WriteHeader (StatusCode response) w))
  end.

(** The writer after the check of the error of [ioutil.ReadAll]. *)
Definition afterRead (f : File) (w : ResponseWriter) : ResponseWriter :=
  match readErr f with
  | Some e => Writer.Error e 500 w
  | None => w
  end.

(** The entries of a mapping stored under one key. *)
Definition entriesAt {V} (k : string) (m : gmap string V) : list (string * V) :=
  filter (λ e, e.1 = k) (map_to_list m).

(** ** Sample requests and states *)

Module Sample.
Definition get (path query : string) : Request :=
  {| Method := "GET";
     URL_ := {| Scheme := EmptyString; Host := EmptyString;
                Path := path; RawQuery := query |};
     form := NotMultipart "request Content-Type isn't multipart/form-data" |}.

Definition post (path query : string) (files : gmap string (list File)) : Request :=
  {| Method := "POST";
     URL_ := {| Scheme := EmptyString; Host := EmptyString;
                Path := path; RawQuery := query |};
     form := Multipart files |}.

(** A POST whose form carries the field [file] with the given bytes. *)
Definition upload (path query bytes : string) : Request :=
  post path query {[ "file" := [ {| contents := bytes; readErr := None |} ] ]}.

(** A POST whose form has no field [file]. *)
Definition noFile (path query : string) : Request :=
  post path query ∅.

(** A GET with the key of [get "/a" "x=1"] that differs from it in its
    other fields. *)
Definition getAgain : Request :=
  {| Method := "GET";
     URL_ := {| Scheme := EmptyString; Host := "127.0.0.1:8080";
                Path := "/a"; RawQuery := "x=1" |};
     form := Multipart ∅ |}.

(** The server after [New] and one [Reset]. *)
Definition fresh : _Server := (Reset New).2.

(** A short test session. *)
Definition session : list Call :=
  [ CallOpen "127.0.0.1:8080"; CallReset; CallSetGET "/a?" "{}";
    Inbound (get "/a" EmptyString);
    Inbound (upload "/upload" EmptyString "hello");
    CallClose ].

(** Calls made on a server that was never reset. *)
Definition unreset : list Call :=
  [ CallOpen "127.0.0.1:8080"; Inbound (get "/a" EmptyString); CallClose ].
End Sample.

(** ** Further states and samples *)


(** Every captured request sits in the mapping of its method, under its
    own key. *)
Definition capturedOK (s : _Server) : Prop :=
  (∀ k r, r ∈ GetGETRequests k s → Method r = MethodGet ∧ getKey r = k) ∧
  (∀ k r, r ∈ GetPOSTRequests k s →
          Method r = MethodPost ∧ recordedPostKey r = Some k).

(** Two states with the same four mappings: they differ in the listener
    and its address at most. *)
Definition sameData (s s' : _Server) : Prop :=
  httpGETRequests s = httpGETRequests s' ∧
  httpGETResponses s = httpGETResponses s' ∧
  httpPOSTRequests s = httpPOSTRequests s' ∧
  httpPOSTResponses s = httpPOSTResponses s'.


Definition isOpen (c : Call) : bool :=
  match c with
  | CallOpen _ => true
  | _ => false
  end.

(** The calls that can change the response registered for GET under [k]. *)
Definition touchesGET (k : string) (c : Call) : bool :=
  match c with
  | CallReset => true
  | CallSetGET key _ => bool_decide (key = k)
  | _ => false
  end.

(** The text of the 404 of each handler. *)
Definition missGET (key : string) : string :=
  "No httpGETResponse for '" +:+ key +:+ "'".

Definition missPOST (key : string) : string :=
  "No httpPOSTResponse for '" +:+ key +:+ "'".

Module Scenario.
(** A request with a method the dispatch does not know. *)
Definition put (path query : string) : Request :=
  {| Method := "PUT";
     URL_ := {| Scheme := EmptyString; Host := EmptyString;
                Path := path; RawQuery := query |};
     form := NotMultipart "request Content-Type isn't multipart/form-data" |}.

(** A file whose read stops with an error after the bytes [he]. *)
Definition truncated : File :=
  {| contents := "he"; readErr := Some "unexpected EOF" |}.

(** A POST whose file cannot be read to its end. *)
Definition unreadable (path query : string) : Request :=
  Sample.post path query {[ "file" := [ truncated ] ]}.

(** The server after [Reset] and one registration for GET and for POST. *)
Definition configured : _Server :=
  (run [CallReset; CallSetGET "/a?" "{}"; CallSetPOST "/upload? hello" "[]"] New).2.



(** Calls of every kind but [Open]. *)
Definition busy : list Call :=
  [ CallReset; CallSetGET "/a?" "{}"; Inbound (Sample.get "/a" EmptyString);
    CallClose; CallSetPOST "/a?" "[]"; CallReset ].

(** A session that configures, serves and closes. *)
Definition traffic : list Call :=
  [ CallSetGET "/b?" "null";
    Inbound (Sample.get "/a" EmptyString);
    Inbound (put "/a" EmptyString);
    Inbound (Sample.noFile "/upload" EmptyString);
    CallClose;
    Inbound (Sample.upload "/upload" EmptyString "hello") ].
End Scenario.

(** * Properties *)

(** ** Equations of the handlers *)

Section handler_equations.
Implicit Types (r : Request) (s : _Server) (w : ResponseWriter).

Lemma handleGetRequest_nil r s w :
  httpGETRequests s = None →
  handleGetRequest r (s, w) = (Panic NilMapAssignment, (s, w)).
Proof.
  intros Hnil. unfold handleGetRequest, onServer, bind, get, try; simpl.
  rewrite Hnil. reflexivity.
Qed.

Lemma handleGetRequest_some r s w m :
  httpGETRequests s = Some m →
  handleGetRequest r (s, w) =
    (Ok (),
     (set_httpGETRequests
        (Some (<[getKey r := append (default [] (m !! getKey r)) r]> m)) s,
      respond ("No httpGETResponse for '" +:+ getKey r +:+ "'")
              (GoMap.lookup (httpGETResponses s) (getKey r)) w)).
Proof.
  intros Hm. unfold handleGetRequest, onServer, bind, get, try, respond; simpl.
  rewrite Hm; simpl. fold (getKey r).
  destruct (GoMap.lookup (httpGETResponses s) (getKey r)); reflexivity.
Qed.

(** [FormFile] gives a file or an error, never both and never neither. *)
Lemma FormFile_cases r key :
  (∃ f, FormFile r key = (Some f, None)) ∨ (∃ e, FormFile r key = (None, Some e)).
Proof.
  unfold FormFile. destruct (form r) as [err|files]; [right; eauto|].
  destruct (files !! key) as [[|f fs]|]; eauto.
Qed.

Lemma handlePostRequest_nofile r s w e :
  FormFile r "file" = (None, Some e) →
  handlePostRequest r (s, w) = (Panic NilDereference, (s, Writer.Error e 500 w)).
Proof.
  intros Hf. unfold handlePostRequest. rewrite Hf. reflexivity.
Qed.

Lemma handlePostRequest_nil r s w f :
  FormFile r "file" = (Some f, None) →
  httpPOSTRequests s = None →
  handlePostRequest r (s, w) = (Panic NilMapAssignment, (s, afterRead f w)).
Proof.
  intros Hf Hnil. unfold handlePostRequest, afterRead. rewrite Hf.
  unfold onServer, bind, get, try, ReadAll; simpl.
  destruct (readErr f); simpl; rewrite Hnil; reflexivity.
Qed.

Lemma handlePostRequest_some r s w f m :
  FormFile r "file" = (Some f, None) →
  httpPOSTRequests s = Some m →
  let key := postKey r (contents f) in
  handlePostRequest r (s, w) =
    (Ok (),
     (set_httpPOSTRequests
        (Some (<[key := append (default [] (m !! key)) r]> m)) s,
      respond ("No httpPOSTResponse for '" +:+ key +:+ "'")
              (GoMap.lookup (httpPOSTResponses s) key) (afterRead f w))).
Proof.
  intros Hf Hm key. unfold handlePostRequest, afterRead. rewrite Hf.
  unfold onServer, bind, get, try, ReadAll, respond; simpl.
  fold (postKey r (contents f)). fold key.
  destruct (readErr f); simpl; rewrite Hm; simpl;
    destruct (GoMap.lookup (httpPOSTResponses s) key); reflexivity.
Qed.
End handler_equations.

(** ** One request, as the client sees it *)

Section serving.
Implicit Types (r : Request) (s : _Server) (w : ResponseWriter).

Lemma finish_miss miss :
  Wire.finishRequest (respond miss None newResponseWriter) =
    {| Wire.code := 404; Wire.header := ∅; Wire.payload := miss |}.
Proof. reflexivity. Qed.

Lemma finish_found response :
  Wire.finishRequest (respond EmptyString (Some response) newResponseWriter) =
    {| Wire.code := StatusCode response; Wire.header := ∅;
       Wire.payload := Body response |}.
Proof. reflexivity. Qed.

Lemma respond_found miss miss' response w :
  respond miss (Some response) w = respond miss' (Some response) w.
Proof. reflexivity. Qed.

Lemma serve_GET r s m :
  Method r = MethodGet →
  httpGETRequests s = Some m →
  serve r s =
    (Wire.Replied
       (Wire.finishRequest
          (respond ("No httpGETResponse for '" +:+ getKey r +:+ "'")
                   (GoMap.lookup (httpGETResponses s) (getKey r))
                   newResponseWriter)),
     set_httpGETRequests
       (Some (<[getKey r := append (default [] (m !! getKey r)) r]> m)) s).
Proof.
  intros Hget Hm. unfold serve, handleRequest.
  rewrite decide_True by done.
  rewrite (handleGetRequest_some _ _ _ _ Hm). reflexivity.
Qed.

Lemma serve_GET_nil r s :
  Method r = MethodGet →
  httpGETRequests s = None →
  serve r s = (Wire.Aborted NilMapAssignment, s).
Proof.
  intros Hget Hnil. unfold serve, handleRequest.
  rewrite decide_True by done.
  rewrite handleGetRequest_nil by done. reflexivity.
Qed.

Lemma method_post_not_get r : Method r = MethodPost → Method r ≠ MethodGet.
Proof. intros ->. discriminate. Qed.

Lemma serve_POST r s f m :
  Method r = MethodPost →
  FormFile r "file" = (Some f, None) →
  httpPOSTRequests s = Some m →
  let key := postKey r (contents f) in
  serve r s =
    (Wire.Replied
       (Wire.finishRequest
          (respond ("No httpPOSTResponse for '" +:+ key +:+ "'")
                   (GoMap.lookup (httpPOSTResponses s) key)
                   (afterRead f newResponseWriter))),
     set_httpPOSTRequests
       (Some (<[key := append (default [] (m !! key)) r]> m)) s).
Proof.
  intros Hpost Hf Hm key. unfold serve, handleRequest.
  rewrite decide_False by (by apply method_post_not_get).
  rewrite decide_True by done.
  rewrite (handlePostRequest_some _ _ _ _ _ Hf Hm). reflexivity.
Qed.

Lemma serve_POST_nil r s f :
  Method r = MethodPost →
  FormFile r "file" = (Some f, None) →
  httpPOSTRequests s = None →
  serve r s = (Wire.Aborted NilMapAssignment, s).
Proof.
  intros Hpost Hf Hnil. unfold serve, handleRequest.
  rewrite decide_False by (by apply method_post_not_get).
  rewrite decide_True by done.
  rewrite (handlePostRequest_nil _ _ _ _ Hf Hnil). reflexivity.
Qed.

Lemma serve_POST_nofile r s e :
  Method r = MethodPost →
  FormFile r "file" = (None, Some e) →
  serve r s = (Wire.Aborted NilDereference, s).
Proof.
  intros Hpost Hf. unfold serve, handleRequest.
  rewrite decide_False by (by apply method_post_not_get).
  rewrite decide_True by done.
  rewrite (handlePostRequest_nofile _ _ _ _ Hf). reflexivity.
Qed.

Lemma serve_other r s :
  Method r ≠ MethodGet → Method r ≠ MethodPost →
  serve r s =
    (Wire.Replied {| Wire.code := 200; Wire.header := ∅;
                     Wire.payload := EmptyString |}, s).
Proof.
  intros Hg Hp. unfold serve, handleRequest.
  rewrite !decide_False by done. reflexivity.
Qed.
End serving.

(** ** The methods of the interface *)

Section methods.
Implicit Types (s : _Server) (k b : string).

Lemma SetGETResponseBody_some k b s m :
  httpGETResponses s = Some m →
  SetGETResponseBody k b s =
    (Ok (), set_httpGETResponses
              (Some (<[k := {| StatusCode := StatusOK; Body := b |}]> m)) s).
Proof.
  intros Hm. unfold SetGETResponseBody, bind, get, try; simpl.
  rewrite Hm. reflexivity.
Qed.

Lemma SetGETResponseBody_nil k b s :
  httpGETResponses s = None →
  SetGETResponseBody k b s = (Panic NilMapAssignment, s).
Proof.
  intros Hnil. unfold SetGETResponseBody, bind, get, try; simpl.
  rewrite Hnil. reflexivity.
Qed.

Lemma SetPOSTResponseBody_some k b s m :
  httpPOSTResponses s = Some m →
  SetPOSTResponseBody k b s =
    (Ok (), set_httpPOSTResponses
              (Some (<[k := {| StatusCode := StatusOK; Body := b |}]> m)) s).
Proof.
  intros Hm. unfold SetPOSTResponseBody, bind, get, try; simpl.
  rewrite Hm. reflexivity.
Qed.

Lemma SetPOSTResponseBody_nil k b s :
  httpPOSTResponses s = None →
  SetPOSTResponseBody k b s = (Panic NilMapAssignment, s).
Proof.
  intros Hnil. unfold SetPOSTResponseBody, bind, get, try; simpl.
  rewrite Hnil. reflexivity.
Qed.

Lemma Reset_eq s :
  Reset s =
    (Ok (), {| server := server s; url := url s;
               httpGETRequests := Some ∅; httpGETResponses := Some ∅;
               httpPOSTRequests := Some ∅; httpPOSTResponses := Some ∅ |}).
Proof. reflexivity. Qed.

Lemma Reset_initialized s : initialized (Reset s).2.
Proof. rewrite Reset_eq. repeat split; simpl; eauto. Qed.

Lemma New_uninitialized : uninitialized New.
Proof. repeat split. Qed.

Lemma Close_eq s :
  Close s =
    (Ok None,
     match server s with
     | None => s
     | Some srv => set_server (Some (httptest_Close srv)) (url s) s
     end).
Proof. unfold Close, bind, get; simpl. destruct (server s); reflexivity. Qed.

Lemma fresh_initialized : initialized Sample.fresh.
Proof. apply Reset_initialized. Qed.
End methods.

(** ** Responses to GET requests *)

(** C6. On a server whose mappings exist, a GET request whose key, the path
    followed by a question mark and the raw query, has no canned response is
    answered with status 404 and the body [No httpGETResponse for 'key'],
    with no header set by the handler: the type on the wire is the one the
    server detects from that text. *)
Theorem get_unregistered_not_found (s : _Server) (r : Request) :
  initialized s →
  Method r = MethodGet →
  GoMap.lookup (httpGETResponses s) (Path (URL_ r) +:+ "?" +:+ RawQuery (URL_ r)) = None →
  ∃ resp,
    (serve r s).1 = Wire.Replied resp ∧
    Wire.code resp = 404 ∧
    Wire.payload resp =
      "No httpGETResponse for '" +:+ (Path (URL_ r) +:+ "?" +:+ RawQuery (URL_ r)) +:+ "'" ∧
    Wire.header resp = ∅ ∧
    ∀ detect, Wire.contentType detect resp = Some (detect (Wire.payload resp)).
Proof.
  intros ([m Hm] & _) Hget Hnone. fold (getKey r) in *.
  rewrite (serve_GET _ _ _ Hget Hm), Hnone, finish_miss.
  eexists; repeat split.
Qed.

Lemma get_unregistered_not_found_witness :
  initialized Sample.fresh ∧
  Method (Sample.get "/b" "x=1") = MethodGet ∧
  GoMap.lookup (httpGETResponses Sample.fresh) "/b?x=1" = None ∧
  ∃ resp,
    (serve (Sample.get "/b" "x=1") Sample.fresh).1 = Wire.Replied resp ∧
    Wire.code resp = 404 ∧
    Wire.payload resp = "No httpGETResponse for '/b?x=1'" ∧
    Wire.header resp = ∅ ∧
    ∀ detect, Wire.contentType detect resp = Some (detect (Wire.payload resp)).
Proof.
  split; [apply fresh_initialized|].
  split; [reflexivity|]. split; [reflexivity|].
  apply (get_unregistered_not_found Sample.fresh (Sample.get "/b" "x=1")).
  - apply fresh_initialized.
  - reflexivity.
  - reflexivity.
Defined.

(** C1. After [SetGETResponseBody k b] on a server whose mappings exist, a
    GET request with key [k] is answered with status 200 and body [b], but
    not with the header the handler means to set: it writes the status
    first, which fixes the headers of the response while the header map is
    still empty, and only then adds [Content-Type: application/json] to the
    map. The response carries no [Content-Type] of the handler; the one on
    the wire is what the server detects from a body that is not empty. *)
Theorem get_registered_header_after_status (s : _Server) (k b : string) (r : Request) :
  initialized s →
  Method r = MethodGet →
  Path (URL_ r) +:+ "?" +:+ RawQuery (URL_ r) = k →
  ∃ s1 s2 w resp,
    SetGETResponseBody k b s = (Ok (), s1) ∧
    handleRequest r (s1, newResponseWriter) = (Ok (), (s2, w)) ∧
    handlerHeader w !! "Content-Type" = Some ["application/json"] ∧
    sentHeader w !! "Content-Type" = None ∧
    (serve r s1).1 = Wire.Replied resp ∧
    Wire.code resp = 200 ∧
    Wire.payload resp = b ∧
    Wire.header resp !! "Content-Type" = None ∧
    ∀ detect, Wire.contentType detect resp =
                if decide (b = EmptyString) then None else Some (detect b).
Proof.
  intros ([mq Hmq] & [mr Hmr] & _) Hget Hk. fold (getKey r) in Hk.
  rewrite (SetGETResponseBody_some _ _ _ _ Hmr).
  set (s1 := set_httpGETResponses _ s).
  assert (Hq1 : httpGETRequests s1 = Some mq) by exact Hmq.
  assert (Hlook : GoMap.lookup (httpGETResponses s1) (getKey r)
                  = Some {| StatusCode := StatusOK; Body := b |}).
  { rewrite Hk. simpl. apply lookup_insert_eq. }
  do 4 eexists. split; [reflexivity|].
  unfold handleRequest. rewrite decide_True by done.
  rewrite (handleGetRequest_some _ _ _ _ Hq1), Hlook.
  split; [reflexivity|].
  split; [reflexivity|]. split; [reflexivity|].
  rewrite (serve_GET _ _ _ Hget Hq1), Hlook.
  rewrite (respond_found _ EmptyString), finish_found.
  split; [reflexivity|]. repeat split.
Qed.

Lemma get_registered_header_after_status_witness :
  initialized Sample.fresh ∧
  Method (Sample.get "/a" EmptyString) = MethodGet ∧
  getKey (Sample.get "/a" EmptyString) = "/a?" ∧
  ∃ s1 s2 w resp,
    SetGETResponseBody "/a?" "{}" Sample.fresh = (Ok (), s1) ∧
    handleRequest (Sample.get "/a" EmptyString) (s1, newResponseWriter)
      = (Ok (), (s2, w)) ∧
    handlerHeader w !! "Content-Type" = Some ["application/json"] ∧
    sentHeader w !! "Content-Type" = None ∧
    (serve (Sample.get "/a" EmptyString) s1).1 = Wire.Replied resp ∧
    Wire.code resp = 200 ∧
    Wire.payload resp = "{}" ∧
    Wire.header resp !! "Content-Type" = None ∧
    ∀ detect, Wire.contentType detect resp = Some (detect "{}").
Proof.
  split; [apply fresh_initialized|].
  split; [reflexivity|]. split; [reflexivity|].
  apply (get_registered_header_after_status
           Sample.fresh "/a?" "{}" (Sample.get "/a" EmptyString)).
  - apply fresh_initialized.
  - reflexivity.
  - reflexivity.
Defined.

(** ** Reset and Close *)

(** C4. [Reset] never panics and replaces the four mappings with empty
    ones; the listener ([server]) and the address ([url]), the only other
    fields, are left as they were; and every GET that follows, whatever was
    configured before, is answered with 404. *)
Theorem reset_empties_and_frames (s : _Server) :
  (Reset s).1 = Ok () ∧
  httpGETRequests (Reset s).2 = Some ∅ ∧
  httpGETResponses (Reset s).2 = Some ∅ ∧
  httpPOSTRequests (Reset s).2 = Some ∅ ∧
  httpPOSTResponses (Reset s).2 = Some ∅ ∧
  server (Reset s).2 = server s ∧
  url (Reset s).2 = url s ∧
  ∀ (u : URL) (fd : FormData),
    let r := {| Method := MethodGet; URL_ := u; form := fd |} in
    (serve r (Reset s).2).1 =
      Wire.Replied
        {| Wire.code := 404; Wire.header := ∅;
           Wire.payload :=
             "No httpGETResponse for '" +:+ (Path u +:+ "?" +:+ RawQuery u) +:+ "'" |}.
Proof.
  rewrite Reset_eq. repeat (split; [reflexivity|]).
  intros u fd r.
  rewrite (serve_GET r _ ∅) by reflexivity. reflexivity.
Qed.

(** C8. Whatever the state of the server (never opened, open or closed),
    [Close] returns a nil error without a panic, calling it again does the
    same and changes nothing more, and it never touches the mappings. *)
Theorem close_idempotent_nil_error (s : _Server) :
  (Close s).1 = Ok None ∧
  Close (Close s).2 = (Ok None, (Close s).2) ∧
  httpGETRequests (Close s).2 = httpGETRequests s ∧
  httpGETResponses (Close s).2 = httpGETResponses s ∧
  httpPOSTRequests (Close s).2 = httpPOSTRequests s ∧
  httpPOSTResponses (Close s).2 = httpPOSTResponses s.
Proof.
  rewrite !Close_eq. destruct s as [[srv|] u gq gr pq pr]; repeat split.
Qed.

(** On a server that was never opened [Close] changes nothing at all, and
    on an open one it marks the listener closed. *)
Lemma close_never_opened (s : _Server) :
  server s = None → Close s = (Ok None, s).
Proof. intros Hnil. rewrite Close_eq, Hnil. reflexivity. Qed.

Lemma close_open (s : _Server) (srv : httptest_Server) :
  server s = Some srv →
  server (Close s).2 = Some {| httptest_URL := httptest_URL srv; closed := true |}.
Proof. intros Hsrv. rewrite Close_eq, Hsrv. reflexivity. Qed.

(** ** Registering responses *)

Section registering.
Context {V : Type}.
Implicit Types (m : gmap string V) (k : string) (v : V).

Lemma filter_none (P : string * V → Prop) `{!∀ e, Decision (P e)}
    (l : list (string * V)) :
  (∀ e, e ∈ l → ¬ P e) → filter P l = [].
Proof.
  intros Hno. destruct (filter P l) as [|e l'] eqn:Hf; [done|].
  assert (He : e ∈ filter P l) by (rewrite Hf; apply elem_of_cons; by left).
  apply list_elem_of_filter in He as [HP He]. by destruct (Hno e He).
Qed.

Lemma filter_key_unique (l : list (string * V)) k v :
  NoDup l.*1 → (k, v) ∈ l → filter (λ e, e.1 = k) l = [(k, v)].
Proof.
  induction l as [|[k' v'] l IH]; simpl; intros Hnd Hin.
  - by apply elem_of_nil in Hin.
  - apply NoDup_cons in Hnd as [Hk' Hnd].
    apply elem_of_cons in Hin as [Heq|Hin].
    + injection Heq as <- <-. rewrite filter_cons_True by done.
      f_equal. apply filter_none.
      intros [k2 v2] Hin2 Heq2; simpl in Heq2; subst k2.
      apply Hk', list_elem_of_fmap. by exists (k, v2).
    + destruct (decide (k' = k)) as [->|Hne].
      * exfalso. apply Hk', list_elem_of_fmap. by exists (k, v).
      * rewrite filter_cons_False by done. by apply IH.
Qed.

(** A mapping holds one entry per key. *)
Lemma entriesAt_lookup m k v : m !! k = Some v → entriesAt k m = [(k, v)].
Proof.
  intros Hk. apply filter_key_unique.
  - apply NoDup_fst_map_to_list.
  - by apply elem_of_map_to_list.
Qed.
End registering.

(** C9. On a server whose mappings exist, registering [b1] and then [b2]
    under the same key leaves one entry for that key, holding [b2] with
    status 200, in the GET responses, and the POST responses are as they
    were; the same with the roles of the two mappings exchanged; and a GET
    and a POST response registered under the same text are both kept. *)
Theorem register_last_wins_separate_keyspaces (s : _Server) (k b1 b2 : string) :
  initialized s →
  (∃ s1 s2 m,
     SetGETResponseBody k b1 s = (Ok (), s1) ∧
     SetGETResponseBody k b2 s1 = (Ok (), s2) ∧
     httpGETResponses s2 = Some m ∧
     entriesAt k m = [(k, {| StatusCode := 200; Body := b2 |})] ∧
     httpPOSTResponses s2 = httpPOSTResponses s) ∧
  (∃ s1 s2 m,
     SetPOSTResponseBody k b1 s = (Ok (), s1) ∧
     SetPOSTResponseBody k b2 s1 = (Ok (), s2) ∧
     httpPOSTResponses s2 = Some m ∧
     entriesAt k m = [(k, {| StatusCode := 200; Body := b2 |})] ∧
     httpGETResponses s2 = httpGETResponses s) ∧
  (∃ s1 s2,
     SetGETResponseBody k b1 s = (Ok (), s1) ∧
     SetPOSTResponseBody k b2 s1 = (Ok (), s2) ∧
     GoMap.lookup (httpGETResponses s2) k = Some {| StatusCode := 200; Body := b1 |} ∧
     GoMap.lookup (httpPOSTResponses s2) k = Some {| StatusCode := 200; Body := b2 |}).
Proof.
  intros (_ & [mg Hmg] & _ & [mp Hmp]). repeat split.
  - rewrite (SetGETResponseBody_some _ _ _ _ Hmg).
    do 3 eexists. split; [reflexivity|].
    split; [by apply SetGETResponseBody_some|].
    split; [reflexivity|]. split; [|reflexivity].
    apply entriesAt_lookup, lookup_insert_eq.
  - rewrite (SetPOSTResponseBody_some _ _ _ _ Hmp).
    do 3 eexists. split; [reflexivity|].
    split; [by apply SetPOSTResponseBody_some|].
    split; [reflexivity|]. split; [|reflexivity].
    apply entriesAt_lookup, lookup_insert_eq.
  - rewrite (SetGETResponseBody_some _ _ _ _ Hmg).
    do 2 eexists. split; [reflexivity|].
    split; [by apply SetPOSTResponseBody_some|].
    split; simpl; apply lookup_insert_eq.
Qed.

Lemma register_last_wins_separate_keyspaces_witness :
  initialized Sample.fresh ∧
  ∃ s1 s2 m,
    SetGETResponseBody "/a?" "one" Sample.fresh = (Ok (), s1) ∧
    SetGETResponseBody "/a?" "two" s1 = (Ok (), s2) ∧
    httpGETResponses s2 = Some m ∧
    entriesAt "/a?" m = [("/a?", {| StatusCode := 200; Body := "two" |})] ∧
    httpPOSTResponses s2 = httpPOSTResponses Sample.fresh.
Proof.
  split; [apply fresh_initialized|].
  apply (register_last_wins_separate_keyspaces Sample.fresh "/a?" "one" "two").
  apply fresh_initialized.
Defined.

(** ** Capturing requests *)

Section capturing.
Implicit Types (r : Request) (s : _Server) (k : string).

Lemma recordedPostKey_file r f e :
  FormFile r "file" = (Some f, e) → recordedPostKey r = Some (postKey r (contents f)).
Proof. intros Hf. unfold recordedPostKey. by rewrite Hf. Qed.

Lemma recordedPostKey_nofile r e :
  FormFile r "file" = (None, e) → recordedPostKey r = None.
Proof. intros Hf. unfold recordedPostKey. by rewrite Hf. Qed.

(** The outcomes of one request on a server whose mappings exist. *)
Lemma serve_state r s :
  initialized s →
  (Method r = MethodGet ∧
     ∃ m, httpGETRequests s = Some m ∧
          (serve r s).2 =
            set_httpGETRequests
              (Some (<[getKey r := append (default [] (m !! getKey r)) r]> m)) s) ∨
  (Method r = MethodPost ∧
     ∃ key m, recordedPostKey r = Some key ∧ httpPOSTRequests s = Some m ∧
              (serve r s).2 =
                set_httpPOSTRequests
                  (Some (<[key := append (default [] (m !! key)) r]> m)) s) ∨
  (Method r ≠ MethodGet ∧
     (Method r = MethodPost → recordedPostKey r = None) ∧ (serve r s).2 = s).
Proof.
  intros ([mg Hmg] & _ & [mp Hmp] & _).
  destruct (decide (Method r = MethodGet)) as [Hget|Hnget].
  { left. split; [done|]. exists mg. split; [done|].
    by rewrite (serve_GET _ _ _ Hget Hmg). }
  right. destruct (decide (Method r = MethodPost)) as [Hpost|Hnpost].
  - destruct (FormFile_cases r "file") as [[f Hf]|[e Hf]].
    + left. split; [done|]. exists (postKey r (contents f)), mp.
      split; [by eapply recordedPostKey_file|]. split; [done|].
      by rewrite (serve_POST _ _ _ _ Hpost Hf Hmp).
    + right. split; [done|]. split; [intros _; by eapply recordedPostKey_nofile|].
      by rewrite (serve_POST_nofile _ _ _ Hpost Hf).
  - right. split; [done|]. split; [done|]. by rewrite serve_other.
Qed.

Lemma serve_initialized r s : initialized s → initialized (serve r s).2.
Proof.
  intros Hs. destruct (serve_state r s Hs)
    as [(_ & m & _ & ->)|[(_ & key & m & _ & _ & ->)|(_ & _ & ->)]]; [| |done];
    destruct Hs as (? & ? & ? & ?); repeat split; simpl; eauto.
Qed.

Lemma serve_GetGETRequests r s k :
  initialized s →
  GetGETRequests k (serve r s).2 = GetGETRequests k s ++ capturedGET k r.
Proof.
  intros Hs. unfold capturedGET. destruct (serve_state r s Hs)
    as [(Hget & m & Hm & ->)|[(Hpost & key & m & _ & _ & ->)|(Hnget & _ & ->)]].
  - unfold GetGETRequests; simpl. rewrite Hm; simpl.
    destruct (decide (getKey r = k)) as [<-|Hne].
    + rewrite lookup_insert_eq, decide_True by done. reflexivity.
    + rewrite lookup_insert_ne, decide_False by tauto. by rewrite app_nil_r.
  - rewrite decide_False. { by rewrite app_nil_r. }
    intros [Hget _]. by apply (method_post_not_get r).
  - rewrite decide_False by tauto. by rewrite app_nil_r.
Qed.

Lemma serve_GetPOSTRequests r s k :
  initialized s →
  GetPOSTRequests k (serve r s).2 = GetPOSTRequests k s ++ capturedPOST k r.
Proof.
  intros Hs. unfold capturedPOST. destruct (serve_state r s Hs)
    as [(Hget & m & _ & ->)|[(Hpost & key & m & Hkey & Hm & ->)|(_ & Hnone & ->)]].
  - rewrite decide_False. { by rewrite app_nil_r. }
    intros [Hpost _]. by apply (method_post_not_get r).
  - unfold GetPOSTRequests; simpl. rewrite Hm, Hkey; simpl.
    destruct (decide (key = k)) as [<-|Hne].
    + rewrite lookup_insert_eq, decide_True by done. reflexivity.
    + rewrite lookup_insert_ne by done.
      rewrite decide_False; [by rewrite app_nil_r|].
      intros [_ [=]]. done.
  - rewrite decide_False. { by rewrite app_nil_r. }
    intros [Hpost Hsome]. rewrite (Hnone Hpost) in Hsome. discriminate.
Qed.
End capturing.

Lemma serveAll_initialized (rs : list Request) (s : _Server) :
  initialized s → initialized (serveAll rs s).
Proof.
  revert s. induction rs as [|r rs IH]; intros s Hs; [done|].
  apply IH, serve_initialized, Hs.
Qed.

Lemma serveAll_GetGETRequests (rs : list Request) (s : _Server) (k : string) :
  initialized s →
  GetGETRequests k (serveAll rs s) =
    GetGETRequests k s ++ filter (λ r, Method r = MethodGet ∧ getKey r = k) rs.
Proof.
  revert s. induction rs as [|r rs IH]; intros s Hs; simpl.
  - by rewrite app_nil_r.
  - rewrite IH by by apply serve_initialized.
    rewrite serve_GetGETRequests by done. rewrite <- app_assoc. f_equal.
    unfold capturedGET. rewrite filter_cons. by case_decide.
Qed.

Lemma serveAll_GetPOSTRequests (rs : list Request) (s : _Server) (k : string) :
  initialized s →
  GetPOSTRequests k (serveAll rs s) =
    GetPOSTRequests k s ++
      filter (λ r, Method r = MethodPost ∧ recordedPostKey r = Some k) rs.
Proof.
  revert s. induction rs as [|r rs IH]; intros s Hs; simpl.
  - by rewrite app_nil_r.
  - rewrite IH by by apply serve_initialized.
    rewrite serve_GetPOSTRequests by done. rewrite <- app_assoc. f_equal.
    unfold capturedPOST. rewrite filter_cons. by case_decide.
Qed.

(** C5. On a server whose mappings exist, after any sequence of inbound
    requests the requests captured under a key are those captured before
    followed by the requests of the sequence recorded under that key, each
    one once and in the order of arrival: the GET requests whose path, question
    mark and raw query make the key, and the POST requests whose file could
    be opened and whose key is that one. In particular two GETs with the
    same key, none having been captured under it before, give a sequence
    of length 2 with the first request first. *)
Theorem captured_requests_accumulate (s : _Server) (rs : list Request) (k : string) :
  initialized s →
  GetGETRequests k (serveAll rs s) =
    GetGETRequests k s ++ filter (λ r, Method r = MethodGet ∧ getKey r = k) rs ∧
  GetPOSTRequests k (serveAll rs s) =
    GetPOSTRequests k s ++
      filter (λ r, Method r = MethodPost ∧ recordedPostKey r = Some k) rs ∧
  ∀ r1 r2 : Request,
    Method r1 = MethodGet → Method r2 = MethodGet →
    getKey r1 = k → getKey r2 = k →
    GetGETRequests k s = [] →
    GetGETRequests k (serveAll [r1; r2] s) = [r1; r2] ∧
    length (GetGETRequests k (serveAll [r1; r2] s)) = 2%nat.
Proof.
  intros Hs. split; [by apply serveAll_GetGETRequests|].
  split; [by apply serveAll_GetPOSTRequests|].
  intros r1 r2 Hm1 Hm2 Hk1 Hk2 Hempty.
  rewrite serveAll_GetGETRequests, Hempty by done.
  rewrite !filter_cons_True, filter_nil by done. done.
Qed.

Lemma captured_requests_accumulate_witness :
  initialized Sample.fresh ∧
  GetGETRequests "/a?x=1"
    (serveAll [Sample.get "/a" "x=1"; Sample.get "/b" "x=1"; Sample.getAgain]
              Sample.fresh)
    = [Sample.get "/a" "x=1"; Sample.getAgain] ∧
  GetGETRequests "/a?x=1"
    (serveAll [Sample.get "/a" "x=1"; Sample.getAgain] Sample.fresh)
    = [Sample.get "/a" "x=1"; Sample.getAgain] ∧
  length (GetGETRequests "/a?x=1"
            (serveAll [Sample.get "/a" "x=1"; Sample.getAgain] Sample.fresh)) = 2%nat.
Proof.
  destruct (captured_requests_accumulate Sample.fresh
              [Sample.get "/a" "x=1"; Sample.get "/b" "x=1"; Sample.getAgain]
              "/a?x=1" fresh_initialized)
    as (Hget & _ & Htwo).
  split; [exact fresh_initialized|]. split; [exact Hget|].
  apply Htwo; reflexivity.
Defined.

(** ** POST requests *)

(** C3. On a server whose mappings exist, a POST request whose form has a
    readable file in the field [file] is recorded under the key made of the
    path, a question mark, the raw query, a space and the contents of the
    file, and under no other key; without a response for that key it is
    answered with the 404 that names the key; and once a response is
    registered under that key with [SetPOSTResponseBody] it is answered with
    status 200 and the registered body. *)
Theorem post_key_and_registered_response
    (s : _Server) (r : Request) (f : File) (b : string) :
  initialized s →
  Method r = MethodPost →
  FormFile r "file" = (Some f, None) →
  readErr f = None →
  let key := Path (URL_ r) +:+ "?" +:+ RawQuery (URL_ r) +:+ " " +:+ contents f in
  GetPOSTRequests key (serve r s).2 = GetPOSTRequests key s ++ [r] ∧
  (∀ k, k ≠ key → GetPOSTRequests k (serve r s).2 = GetPOSTRequests k s) ∧
  (GoMap.lookup (httpPOSTResponses s) key = None →
   (serve r s).1 =
     Wire.Replied {| Wire.code := 404; Wire.header := ∅;
                     Wire.payload := "No httpPOSTResponse for '" +:+ key +:+ "'" |}) ∧
  ∃ s1 resp,
    SetPOSTResponseBody key b s = (Ok (), s1) ∧
    (serve r s1).1 = Wire.Replied resp ∧
    Wire.code resp = 200 ∧
    Wire.payload resp = b.
Proof.
  intros Hs Hpost Hf Hread key. fold (postKey r (contents f)) in key.
  assert (Hkey : recordedPostKey r = Some key) by by eapply recordedPostKey_file.
  assert (Hafter : afterRead f newResponseWriter = newResponseWriter)
    by (unfold afterRead; by rewrite Hread).
  repeat split.
  - rewrite serve_GetPOSTRequests by done. unfold capturedPOST.
    by rewrite decide_True.
  - intros k Hk. rewrite serve_GetPOSTRequests by done. unfold capturedPOST.
    rewrite decide_False; [by rewrite app_nil_r|].
    rewrite Hkey. intros [_ [=]]. done.
  - intros Hnone. destruct Hs as (_ & _ & [mp Hmp] & _).
    rewrite (serve_POST _ _ _ _ Hpost Hf Hmp). fold key.
    rewrite Hnone, Hafter. reflexivity.
  - destruct Hs as (_ & _ & [mp Hmp] & [mr Hmr]).
    rewrite (SetPOSTResponseBody_some _ _ _ _ Hmr).
    set (s1 := set_httpPOSTResponses _ s).
    assert (Hp1 : httpPOSTRequests s1 = Some mp) by exact Hmp.
    do 2 eexists. split; [reflexivity|].
    rewrite (serve_POST _ _ _ _ Hpost Hf Hp1). fold key.
    assert (Hlook : GoMap.lookup (httpPOSTResponses s1) key
                    = Some {| StatusCode := StatusOK; Body := b |})
      by apply lookup_insert_eq.
    rewrite Hlook, Hafter. repeat split.
Qed.

Lemma post_key_and_registered_response_witness :
  initialized Sample.fresh ∧
  Method (Sample.upload "/upload" EmptyString "hello") = MethodPost ∧
  FormFile (Sample.upload "/upload" EmptyString "hello") "file"
    = (Some {| contents := "hello"; readErr := None |}, None) ∧
  GetPOSTRequests "/upload? hello"
    (serve (Sample.upload "/upload" EmptyString "hello") Sample.fresh).2
    = [Sample.upload "/upload" EmptyString "hello"] ∧
  ∃ s1 resp,
    SetPOSTResponseBody "/upload? hello" "{}" Sample.fresh = (Ok (), s1) ∧
    (serve (Sample.upload "/upload" EmptyString "hello") s1).1 = Wire.Replied resp ∧
    Wire.code resp = 200 ∧
    Wire.payload resp = "{}".
Proof.
  destruct (post_key_and_registered_response Sample.fresh
              (Sample.upload "/upload" EmptyString "hello")
              {| contents := "hello"; readErr := None |} "{}"
              fresh_initialized eq_refl eq_refl eq_refl)
    as (Hrec & _ & _ & Hreg).
  split; [exact fresh_initialized|].
  split; [reflexivity|]. split; [reflexivity|].
  split; [exact Hrec|exact Hreg].
Defined.

(** C2 as stated fails: the body the handler writes for a POST without the
    field [file] is not the text of the error, it is that text and a line
    feed. *)
Lemma post_without_file_body_not_error_text :
  (FormFile (Sample.noFile "/upload" EmptyString) "file").2 = Some "http: no such file" ∧
  ∃ w,
    (handleRequest (Sample.noFile "/upload" EmptyString)
       (Sample.fresh, newResponseWriter)).2 = (Sample.fresh, w) ∧
    status w = 500 ∧
    written w = "http: no such file" +:+ newline ∧
    written w ≠ "http: no such file".
Proof.
  split; [reflexivity|]. eexists. split; [reflexivity|].
  split; [reflexivity|]. split; [reflexivity|]. discriminate.
Qed.

(** C2, amended. When the file of the field [file] cannot be extracted from
    a POST request, with error text [e], the handler writes status 500,
    with the headers of [http.Error], and the body [e] followed by a line
    feed, and it does not return there: it goes on to read the file, which
    is nil, and that is where it stops, on a nil dereference, the server
    struct untouched. *)
Theorem post_without_file_writes_500_and_goes_on
    (s : _Server) (r : Request) (e : string) :
  Method r = MethodPost →
  (FormFile r "file").2 = Some e →
  ∃ w,
    handleRequest r (s, newResponseWriter) = (Panic NilDereference, (s, w)) ∧
    wroteHeader w = true ∧
    status w = 500 ∧
    written w = e +:+ newline ∧
    sentHeader w !! "Content-Type" = Some ["text/plain; charset=utf-8"] ∧
    sentHeader w !! "X-Content-Type-Options" = Some ["nosniff"].
Proof.
  intros Hpost He.
  destruct (FormFile_cases r "file") as [[f Hf]|[e' Hf]];
    rewrite Hf in He; simpl in He; [discriminate|]. injection He as ->.
  unfold handleRequest.
  rewrite decide_False by (by apply method_post_not_get).
  rewrite decide_True by done.
  rewrite (handlePostRequest_nofile _ _ _ _ Hf).
  eexists. split; [reflexivity|]. repeat split.
Qed.

Lemma post_without_file_writes_500_and_goes_on_witness :
  Method (Sample.noFile "/upload" EmptyString) = MethodPost ∧
  (FormFile (Sample.noFile "/upload" EmptyString) "file").2 = Some ErrMissingFile ∧
  ∃ w,
    handleRequest (Sample.noFile "/upload" EmptyString) (Sample.fresh, newResponseWriter)
      = (Panic NilDereference, (Sample.fresh, w)) ∧
    wroteHeader w = true ∧
    status w = 500 ∧
    written w = ErrMissingFile +:+ newline ∧
    sentHeader w !! "Content-Type" = Some ["text/plain; charset=utf-8"] ∧
    sentHeader w !! "X-Content-Type-Options" = Some ["nosniff"].
Proof.
  split; [reflexivity|]. split; [reflexivity|].
  apply (post_without_file_writes_500_and_goes_on
           Sample.fresh (Sample.noFile "/upload" EmptyString) ErrMissingFile);
    reflexivity.
Defined.

(** ** Sequences of calls from [New] *)

Section runs.
Implicit Types (c : Call) (cs : list Call) (r : Request) (s : _Server) (k : string).

Lemma run_cons c cs s :
  run (c :: cs) s =
    match call c s with
    | (Ok _, s') => run cs s'
    | (Panic p, s') => (Panic p, s')
    end.
Proof. reflexivity. Qed.

(** A request leaves the GET requests captured under [k] alone unless it
    is a GET with that key, whatever the state of the server. *)
Lemma serve_GetGETRequests_other r s k :
  ¬ (Method r = MethodGet ∧ getKey r = k) →
  GetGETRequests k (serve r s).2 = GetGETRequests k s.
Proof.
  intros Hnot. destruct (decide (Method r = MethodGet)) as [Hget|Hnget].
  - destruct (httpGETRequests s) as [m|] eqn:Hm.
    + rewrite (serve_GET _ _ _ Hget Hm). unfold GetGETRequests; simpl.
      rewrite Hm; simpl. rewrite lookup_insert_ne; [done|tauto].
    + by rewrite serve_GET_nil.
  - destruct (decide (Method r = MethodPost)) as [Hpost|Hnpost];
      [|by rewrite serve_other].
    destruct (FormFile_cases r "file") as [[f Hf]|[e Hf]];
      [|by rewrite (serve_POST_nofile _ _ _ Hpost Hf)].
    destruct (httpPOSTRequests s) as [m|] eqn:Hm.
    + by rewrite (serve_POST _ _ _ _ Hpost Hf Hm).
    + by rewrite (serve_POST_nil _ _ _ Hpost Hf Hm).
Qed.

Lemma serve_GetPOSTRequests_other r s k :
  ¬ (Method r = MethodPost ∧ recordedPostKey r = Some k) →
  GetPOSTRequests k (serve r s).2 = GetPOSTRequests k s.
Proof.
  intros Hnot. destruct (decide (Method r = MethodGet)) as [Hget|Hnget].
  - destruct (httpGETRequests s) as [m|] eqn:Hm.
    + by rewrite (serve_GET _ _ _ Hget Hm).
    + by rewrite serve_GET_nil.
  - destruct (decide (Method r = MethodPost)) as [Hpost|Hnpost];
      [|by rewrite serve_other].
    destruct (FormFile_cases r "file") as [[f Hf]|[e Hf]];
      [|by rewrite (serve_POST_nofile _ _ _ Hpost Hf)].
    destruct (httpPOSTRequests s) as [m|] eqn:Hm.
    + rewrite (serve_POST _ _ _ _ Hpost Hf Hm). unfold GetPOSTRequests; simpl.
      rewrite Hm; simpl. rewrite lookup_insert_ne; [done|].
      intros Hk. apply Hnot. split; [done|].
      rewrite <- Hk. by eapply recordedPostKey_file.
    + by rewrite (serve_POST_nil _ _ _ Hpost Hf Hm).
Qed.

(** The methods of the interface and the requests they capture. *)
Lemma call_requests c s :
  (∃ r, c = Inbound r) ∨
  c = CallReset ∨
  (httpGETRequests (call c s).2 = httpGETRequests s ∧
   httpPOSTRequests (call c s).2 = httpPOSTRequests s).
Proof.
  destruct c as [addr| | |key b|key b|r]; eauto; right; right; simpl.
  - unfold bind. rewrite Close_eq. by destruct (server s).
  - destruct (httpGETResponses s) as [m|] eqn:Hm.
    + by rewrite (SetGETResponseBody_some _ _ _ _ Hm).
    + by rewrite SetGETResponseBody_nil.
  - destruct (httpPOSTResponses s) as [m|] eqn:Hm.
    + by rewrite (SetPOSTResponseBody_some _ _ _ _ Hm).
    + by rewrite SetPOSTResponseBody_nil.
Qed.

Lemma call_GetGETRequests_empty c s k :
  (∀ r, c = Inbound r → ¬ (Method r = MethodGet ∧ getKey r = k)) →
  GetGETRequests k s = [] →
  GetGETRequests k (call c s).2 = [].
Proof.
  intros Hc Hempty. destruct (call_requests c s) as [[r ->]|[->|[Hg _]]].
  - simpl. rewrite serve_GetGETRequests_other; [done|by apply Hc].
  - reflexivity.
  - unfold GetGETRequests in *. by rewrite Hg.
Qed.

Lemma call_GetPOSTRequests_empty c s k :
  (∀ r, c = Inbound r → ¬ (Method r = MethodPost ∧ recordedPostKey r = Some k)) →
  GetPOSTRequests k s = [] →
  GetPOSTRequests k (call c s).2 = [].
Proof.
  intros Hc Hempty. destruct (call_requests c s) as [[r ->]|[->|[_ Hp]]].
  - simpl. rewrite serve_GetPOSTRequests_other; [done|by apply Hc].
  - reflexivity.
  - unfold GetPOSTRequests in *. by rewrite Hp.
Qed.

Lemma run_GetGETRequests_empty cs s k :
  (∀ r, Inbound r ∈ cs → ¬ (Method r = MethodGet ∧ getKey r = k)) →
  GetGETRequests k s = [] →
  GetGETRequests k (run cs s).2 = [].
Proof.
  revert s. induction cs as [|c cs IH]; intros s Hcs Hempty; [done|].
  assert (Hc : GetGETRequests k (call c s).2 = []).
  { apply call_GetGETRequests_empty; [|done].
    intros r ->. apply Hcs, elem_of_cons. by left. }
  rewrite run_cons. destruct (call c s) as [[[]|p] s']; simpl in *; [|done].
  apply IH; [|done]. intros r Hr. apply Hcs, elem_of_cons. by right.
Qed.

Lemma run_GetPOSTRequests_empty cs s k :
  (∀ r, Inbound r ∈ cs → ¬ (Method r = MethodPost ∧ recordedPostKey r = Some k)) →
  GetPOSTRequests k s = [] →
  GetPOSTRequests k (run cs s).2 = [].
Proof.
  revert s. induction cs as [|c cs IH]; intros s Hcs Hempty; [done|].
  assert (Hc : GetPOSTRequests k (call c s).2 = []).
  { apply call_GetPOSTRequests_empty; [|done].
    intros r ->. apply Hcs, elem_of_cons. by left. }
  rewrite run_cons. destruct (call c s) as [[[]|p] s']; simpl in *; [|done].
  apply IH; [|done]. intros r Hr. apply Hcs, elem_of_cons. by right.
Qed.
End runs.

(** C7. Start from [New] and make any calls: for a key under which no
    inbound GET request was recorded, [GetGETRequests] returns the empty
    sequence, and likewise [GetPOSTRequests] for a key under which no inbound
    POST request was recorded. Both are plain reads of a mapping, defined on
    every state, nil mappings included: there is no error to return and no
    panic. *)
Theorem never_recorded_key_gives_empty (cs : list Call) (k : string) :
  ((∀ r, Inbound r ∈ cs → ¬ (Method r = MethodGet ∧ getKey r = k)) →
   GetGETRequests k (run cs New).2 = []) ∧
  ((∀ r, Inbound r ∈ cs → ¬ (Method r = MethodPost ∧ recordedPostKey r = Some k)) →
   GetPOSTRequests k (run cs New).2 = []).
Proof.
  split; intros Hcs.
  - by apply run_GetGETRequests_empty.
  - by apply run_GetPOSTRequests_empty.
Qed.

Lemma never_recorded_key_gives_empty_witness :
  (∀ r, Inbound r ∈ Sample.session → ¬ (Method r = MethodGet ∧ getKey r = "/b?")) ∧
  (∀ r, Inbound r ∈ Sample.session →
        ¬ (Method r = MethodPost ∧ recordedPostKey r = Some "/b?")) ∧
  GetGETRequests "/b?" (run Sample.session New).2 = [] ∧
  GetPOSTRequests "/b?" (run Sample.session New).2 = [] ∧
  GetGETRequests "/a?" (run Sample.session New).2 = [Sample.get "/a" EmptyString].
Proof.
  assert (Hget : ∀ r, Inbound r ∈ Sample.session →
                      ¬ (Method r = MethodGet ∧ getKey r = "/b?")).
  { intros r Hr [_ Hk]. unfold Sample.session in Hr.
    repeat (apply elem_of_cons in Hr as [Hr|Hr]; [try discriminate Hr|]).
    - injection Hr as ->. discriminate Hk.
    - injection Hr as ->. discriminate Hk.
    - by apply elem_of_nil in Hr. }
  assert (Hpost : ∀ r, Inbound r ∈ Sample.session →
                       ¬ (Method r = MethodPost ∧ recordedPostKey r = Some "/b?")).
  { intros r Hr [_ Hk]. unfold Sample.session in Hr.
    repeat (apply elem_of_cons in Hr as [Hr|Hr]; [try discriminate Hr|]).
    - injection Hr as ->. discriminate Hk.
    - injection Hr as ->. discriminate Hk.
    - by apply elem_of_nil in Hr. }
  split; [exact Hget|]. split; [exact Hpost|].
  destruct (never_recorded_key_gives_empty Sample.session "/b?") as [HG HP].
  split; [exact (HG Hget)|]. split; [exact (HP Hpost)|]. reflexivity.
Defined.

(** ** Before the first Reset *)

Section before_reset.
Implicit Types (c : Call) (cs : list Call) (r : Request) (s : _Server).

Lemma serve_uninitialized r s : uninitialized s → (serve r s).2 = s.
Proof.
  intros (Hgq & _ & Hpq & _).
  destruct (decide (Method r = MethodGet)) as [Hget|Hnget];
    [by rewrite serve_GET_nil|].
  destruct (decide (Method r = MethodPost)) as [Hpost|Hnpost];
    [|by rewrite serve_other].
  destruct (FormFile_cases r "file") as [[f Hf]|[e Hf]].
  - by rewrite (serve_POST_nil _ _ _ Hpost Hf Hpq).
  - by rewrite (serve_POST_nofile _ _ _ Hpost Hf).
Qed.

(** No call but [Reset] makes a mapping. *)
Lemma call_uninitialized c s :
  c ≠ CallReset → uninitialized s → uninitialized (call c s).2.
Proof.
  intros Hc Hs. destruct c as [addr| | |key b|key b|r]; simpl; [| |done| | |].
  - exact Hs.
  - unfold bind. rewrite Close_eq. by destruct (server s).
  - destruct Hs as (? & Hr & ? & ?). by rewrite SetGETResponseBody_nil.
  - destruct Hs as (? & ? & ? & Hr). by rewrite SetPOSTResponseBody_nil.
  - by rewrite serve_uninitialized.
Qed.

Lemma run_uninitialized cs s :
  CallReset ∉ cs → uninitialized s → uninitialized (run cs s).2.
Proof.
  revert s. induction cs as [|c cs IH]; intros s Hcs Hs; [done|].
  apply not_elem_of_cons in Hcs as [Hc Hcs].
  pose proof (call_uninitialized c s (not_eq_sym Hc) Hs) as Hs'.
  rewrite run_cons. destruct (call c s) as [[[]|p] s']; simpl in *; [|done].
  by apply IH.
Qed.

(** Every call keeps the mappings once they exist. *)
Lemma call_initialized c s : initialized s → initialized (call c s).2.
Proof.
  intros Hs. destruct c as [addr| | |key b|key b|r]; simpl.
  - exact Hs.
  - unfold bind. rewrite Close_eq. by destruct (server s).
  - apply Reset_initialized.
  - destruct Hs as (? & [m Hm] & ? & ?).
    rewrite (SetGETResponseBody_some _ _ _ _ Hm). repeat split; simpl; eauto.
  - destruct Hs as (? & ? & ? & [m Hm]).
    rewrite (SetPOSTResponseBody_some _ _ _ _ Hm). repeat split; simpl; eauto.
  - by apply serve_initialized.
Qed.

(** The states a server goes through from [New] have the four mappings
    nil or the four mappings made. *)
Lemma run_nil_or_made cs s :
  uninitialized s ∨ initialized s →
  uninitialized (run cs s).2 ∨ initialized (run cs s).2.
Proof.
  revert s. induction cs as [|c cs IH]; intros s Hs; [done|].
  assert (Hs' : uninitialized (call c s).2 ∨ initialized (call c s).2).
  { destruct Hs as [Hs|Hs]; [|right; by apply call_initialized].
    destruct c;
      first [ left; by apply call_uninitialized
            | right; apply Reset_initialized ]. }
  rewrite run_cons. destruct (call c s) as [[[]|p] s']; simpl in *; [|done].
  by apply IH.
Qed.
End before_reset.

(** C10 as stated fails for one kind of request: on the server [New]
    returns, a POST without the field [file] does make the handler panic,
    but on the read of the nil file, before any mapping is written. *)
Lemma post_without_file_panics_before_map_write :
  Method (Sample.noFile "/upload" EmptyString) = MethodPost ∧
  handleRequest (Sample.noFile "/upload" EmptyString) (New, newResponseWriter)
    = (Panic NilDereference,
       (New, Writer.Error "http: no such file" 500 newResponseWriter)) ∧
  (serve (Sample.noFile "/upload" EmptyString) New).1 = Wire.Aborted NilDereference ∧
  (serve (Sample.noFile "/upload" EmptyString) New).1 ≠ Wire.Aborted NilMapAssignment.
Proof. repeat split. discriminate. Qed.

(** C10, amended. [New] returns a server whose four mappings are nil, and
    they stay nil through any calls that are not [Reset]. In such a state
    [SetGETResponseBody] and [SetPOSTResponseBody] panic on the assignment
    to an entry of a nil map, and so does the handling of every GET request
    and of every POST request whose file can be extracted, the server left
    as it was; [Reset] makes the four mappings. *)
Theorem before_reset_nil_maps_panic (cs : list Call) :
  CallReset ∉ cs →
  let s := (run cs New).2 in
  uninitialized New ∧
  uninitialized s ∧
  (∀ k b, SetGETResponseBody k b s = (Panic NilMapAssignment, s)) ∧
  (∀ k b, SetPOSTResponseBody k b s = (Panic NilMapAssignment, s)) ∧
  (∀ r, Method r = MethodGet → serve r s = (Wire.Aborted NilMapAssignment, s)) ∧
  (∀ r f, Method r = MethodPost → FormFile r "file" = (Some f, None) →
          serve r s = (Wire.Aborted NilMapAssignment, s)) ∧
  initialized (Reset s).2.
Proof.
  intros Hcs s.
  assert (Hs : uninitialized s) by (apply run_uninitialized; [done|apply New_uninitialized]).
  split; [apply New_uninitialized|]. split; [exact Hs|].
  destruct Hs as (Hgq & Hgr & Hpq & Hpr).
  split; [intros k b; by apply SetGETResponseBody_nil|].
  split; [intros k b; by apply SetPOSTResponseBody_nil|].
  split; [intros r Hget; by apply serve_GET_nil|].
  split; [intros r f Hpost Hf; by eapply serve_POST_nil|].
  apply Reset_initialized.
Qed.

Lemma before_reset_nil_maps_panic_witness :
  (CallReset ∉ Sample.unreset) ∧
  uninitialized (run Sample.unreset New).2 ∧
  SetGETResponseBody "/a?" "{}" (run Sample.unreset New).2
    = (Panic NilMapAssignment, (run Sample.unreset New).2) ∧
  SetPOSTResponseBody "/upload? hello" "{}" (run Sample.unreset New).2
    = (Panic NilMapAssignment, (run Sample.unreset New).2) ∧
  serve (Sample.get "/a" EmptyString) (run Sample.unreset New).2
    = (Wire.Aborted NilMapAssignment, (run Sample.unreset New).2) ∧
  serve (Sample.upload "/upload" EmptyString "hello") (run Sample.unreset New).2
    = (Wire.Aborted NilMapAssignment, (run Sample.unreset New).2) ∧
  initialized (Reset (run Sample.unreset New).2).2.
Proof.
  assert (Hcs : CallReset ∉ Sample.unreset).
  { intros H. unfold Sample.unreset in H.
    repeat (apply elem_of_cons in H as [H|H]; [discriminate H|]).
    by apply elem_of_nil in H. }
  destruct (before_reset_nil_maps_panic Sample.unreset Hcs)
    as (_ & Hs & Hsg & Hsp & Hget & Hpost & Hreset).
  split; [exact Hcs|]. split; [exact Hs|].
  split; [apply Hsg|]. split; [apply Hsp|].
  split; [apply Hget; reflexivity|].
  split; [eapply Hpost; reflexivity|].
  exact Hreset.
Defined.

(** * Further properties of the handlers and of the methods *)

(** ** The outcomes of one request, in any state *)

Section outcomes.
Implicit Types (r : Request) (s : _Server) (k : string).

Lemma serve_cases r s :
  (Method r = MethodGet ∧
     ∃ m, httpGETRequests s = Some m ∧
          serve r s =
            (Wire.Replied
               (Wire.finishRequest
                  (respond (missGET (getKey r))
                     (GoMap.lookup (httpGETResponses s) (getKey r)) newResponseWriter)),
             set_httpGETRequests
               (Some (<[getKey r := append (default [] (m !! getKey r)) r]> m)) s)) ∨
  (Method r = MethodGet ∧ httpGETRequests s = None ∧
     serve r s = (Wire.Aborted NilMapAssignment, s)) ∨
  (Method r = MethodPost ∧
     ∃ f m, FormFile r "file" = (Some f, None) ∧ httpPOSTRequests s = Some m ∧
            serve r s =
              (Wire.Replied
                 (Wire.finishRequest
                    (respond (missPOST (postKey r (contents f)))
                       (GoMap.lookup (httpPOSTResponses s) (postKey r (contents f)))
                       (afterRead f newResponseWriter))),
               set_httpPOSTRequests
                 (Some (<[postKey r (contents f) :=
                            append (default [] (m !! postKey r (contents f))) r]> m)) s)) ∨
  (Method r = MethodPost ∧
     ∃ f, FormFile r "file" = (Some f, None) ∧ httpPOSTRequests s = None ∧
          serve r s = (Wire.Aborted NilMapAssignment, s)) ∨
  (Method r = MethodPost ∧
     ∃ e, FormFile r "file" = (None, Some e) ∧
          serve r s = (Wire.Aborted NilDereference, s)) ∨
  (Method r ≠ MethodGet ∧ Method r ≠ MethodPost ∧
     serve r s =
       (Wire.Replied {| Wire.code := 200; Wire.header := ∅;
                        Wire.payload := EmptyString |}, s)).
Proof.
  destruct (decide (Method r = MethodGet)) as [Hget|Hnget].
  { destruct (httpGETRequests s) as [m|] eqn:Hm.
    - left. split; [done|]. exists m. split; [done|]. by apply serve_GET.
    - right; left. split; [done|]. split; [done|]. by apply serve_GET_nil. }
  destruct (decide (Method r = MethodPost)) as [Hpost|Hnpost].
  - destruct (FormFile_cases r "file") as [[f Hf]|[e Hf]].
    + destruct (httpPOSTRequests s) as [m|] eqn:Hm.
      * do 2 right; left. split; [done|]. exists f, m.
        split; [done|]. split; [done|]. by apply serve_POST.
      * do 3 right; left. split; [done|]. exists f.
        split; [done|]. split; [done|]. by eapply serve_POST_nil.
    + do 4 right; left. split; [done|]. exists e. split; [done|].
      by eapply serve_POST_nofile.
  - do 5 right. split; [done|]. split; [done|]. by apply serve_other.
Qed.

(** A handler writes to the two mappings of requests and to nothing else
    of the server. *)
Lemma serve_frame r s :
  server (serve r s).2 = server s ∧
  url (serve r s).2 = url s ∧
  httpGETResponses (serve r s).2 = httpGETResponses s ∧
  httpPOSTResponses (serve r s).2 = httpPOSTResponses s.
Proof.
  destruct (serve_cases r s)
    as [(_ & m & _ & ->)|[(_ & _ & ->)|[(_ & f & m & _ & _ & ->)
       |[(_ & f & _ & _ & ->)|[(_ & e & _ & ->)|(_ & _ & ->)]]]]]; done.
Qed.
End outcomes.

(** ** Methods the dispatch does not know *)

(** X1. Requests whose method is neither GET nor POST are not handled: each
    is answered with the empty 200 that a handler which writes nothing
    gets, and a whole sequence of them leaves the server as it was, nothing
    captured. *)
Theorem unknown_methods_are_ignored (rs : list Request) (s : _Server) :
  Forall (λ r, Method r ≠ MethodGet ∧ Method r ≠ MethodPost) rs →
  serveAll rs s = s ∧
  Forall (λ r, handleRequest r (s, newResponseWriter) = (Ok (), (s, newResponseWriter)) ∧
               (serve r s).1 =
                 Wire.Replied {| Wire.code := 200; Wire.header := ∅;
                                 Wire.payload := EmptyString |}) rs.
Proof.
  intros Hrs. split.
  - induction Hrs as [|r rs [Hg Hp] _ IH]; [done|].
    simpl. by rewrite serve_other.
  - eapply Forall_impl; [exact Hrs|]. intros r [Hg Hp]. split.
    + unfold handleRequest. by rewrite !decide_False.
    + by rewrite serve_other.
Qed.

Lemma unknown_methods_are_ignored_witness :
  Forall (λ r, Method r ≠ MethodGet ∧ Method r ≠ MethodPost)
    [Scenario.put "/a" EmptyString; Scenario.put "/b" "x=1"] ∧
  serveAll [Scenario.put "/a" EmptyString; Scenario.put "/b" "x=1"] Scenario.configured
    = Scenario.configured ∧
  GetGETRequests "/a?"
    (serveAll [Scenario.put "/a" EmptyString; Scenario.put "/b" "x=1"]
       Scenario.configured) = [].
Proof.
  assert (Hrs : Forall (λ r, Method r ≠ MethodGet ∧ Method r ≠ MethodPost)
                  [Scenario.put "/a" EmptyString; Scenario.put "/b" "x=1"])
    by (repeat constructor; discriminate).
  destruct (unknown_methods_are_ignored _ Scenario.configured Hrs) as [Hsame _].
  split; [exact Hrs|]. split; [exact Hsame|].
  rewrite Hsame. reflexivity.
Defined.

(** ** Requests whose handler panics *)

(** X2. In any state of the server, a request whose handler panics leaves
    the server struct exactly as it was: both handlers panic before they
    store anything. *)
Theorem aborted_request_leaves_server (s : _Server) (r : Request) (p : panic) :
  (serve r s).1 = Wire.Aborted p →
  (serve r s).2 = s ∧
  ∃ w, handleRequest r (s, newResponseWriter) = (Panic p, (s, w)).
Proof.
  intros Hab. split.
  - destruct (serve_cases r s)
      as [(_ & m & _ & Hs)|[(_ & _ & Hs)|[(_ & f & m & _ & _ & Hs)
         |[(_ & f & _ & _ & Hs)|[(_ & e & _ & Hs)|(_ & _ & Hs)]]]]];
      rewrite Hs in Hab |- *; done.
  - revert Hab. unfold serve.
    destruct (handleRequest r (s, newResponseWriter)) as [[[]|p'] [s' w]] eqn:Hh;
      simpl; [done|]. intros [= ->]. exists w. f_equal. f_equal.
    destruct (serve_cases r s)
      as [(_ & m & _ & Hs)|[(_ & _ & Hs)|[(_ & f & m & _ & _ & Hs)
         |[(_ & f & _ & _ & Hs)|[(_ & e & _ & Hs)|(_ & _ & Hs)]]]]];
      unfold serve in Hs; rewrite Hh in Hs; simpl in Hs; congruence.
Qed.

Lemma aborted_request_leaves_server_witness :
  (serve (Sample.get "/a" EmptyString) New).1 = Wire.Aborted NilMapAssignment ∧
  (serve (Sample.get "/a" EmptyString) New).2 = New ∧
  ∃ w, handleRequest (Sample.get "/a" EmptyString) (New, newResponseWriter)
       = (Panic NilMapAssignment, (New, w)).
Proof.
  split; [reflexivity|].
  apply (aborted_request_leaves_server New (Sample.get "/a" EmptyString)).
  reflexivity.
Defined.

(** X3. Once the mappings exist, the requests whose handler panics are the
    POST requests from which no file can be extracted, and the panic is the
    nil dereference of the read; every other request is answered. *)
Theorem aborted_iff_post_without_file (s : _Server) (r : Request) :
  initialized s →
  ((∃ p, (serve r s).1 = Wire.Aborted p) ↔
   (Method r = MethodPost ∧ (FormFile r "file").1 = None)) ∧
  (∀ p, (serve r s).1 = Wire.Aborted p → p = NilDereference).
Proof.
  intros ([mg Hmg] & _ & [mp Hmp] & _).
  destruct (serve_cases r s)
    as [(Hget & m & _ & Hs)|[(_ & Hnil & _)|[(Hpost & f & m & Hf & _ & Hs)
       |[(_ & f & _ & Hnil & _)|[(Hpost & e & Hf & Hs)|(Hg & Hp & Hs)]]]]];
    try congruence; rewrite Hs; simpl.
  - split; [|done]. split; [intros [p [=]]|].
    intros [Hpost _]. by destruct (method_post_not_get r).
  - split; [|done]. split; [intros [p [=]]|]. rewrite Hf. by intros [_ [=]].
  - split; [|by intros p [= <-]]. split; [|by eauto].
    intros _. by rewrite Hf.
  - split; [|done]. split; [intros [p [=]]|]. by intros [? _].
Qed.

Lemma aborted_iff_post_without_file_witness :
  initialized Scenario.configured ∧
  (serve (Sample.noFile "/upload" EmptyString) Scenario.configured).1
    = Wire.Aborted NilDereference ∧
  Method (Sample.upload "/upload" EmptyString "hello") = MethodPost ∧
  ¬ (∃ p, (serve (Sample.upload "/upload" EmptyString "hello") Scenario.configured).1
          = Wire.Aborted p).
Proof.
  assert (Hs : initialized Scenario.configured)
    by (repeat split; eexists; reflexivity).
  split; [exact Hs|]. split; [reflexivity|]. split; [reflexivity|].
  intros Hab.
  destruct (aborted_iff_post_without_file Scenario.configured
              (Sample.upload "/upload" EmptyString "hello") Hs) as [[Hto _] _].
  destruct (Hto Hab) as [_ Hnone]. discriminate Hnone.
Defined.

(** ** POST requests: the header and the failed read *)

(** X4. The POST handler has the order of calls of the GET handler: on a
    server whose mappings exist, a POST with a readable file and a response
    registered under its key is answered with status 200 and the registered
    body, and with no header of the handler, the [Content-Type] it adds
    coming after the status was written. *)
Theorem post_registered_header_after_status
    (s : _Server) (r : Request) (f : File) (b : string) :
  initialized s →
  Method r = MethodPost →
  FormFile r "file" = (Some f, None) →
  readErr f = None →
  ∃ s1 s2 w resp,
    SetPOSTResponseBody (postKey r (contents f)) b s = (Ok (), s1) ∧
    handleRequest r (s1, newResponseWriter) = (Ok (), (s2, w)) ∧
    handlerHeader w !! "Content-Type" = Some ["application/json"] ∧
    (serve r s1).1 = Wire.Replied resp ∧
    Wire.code resp = 200 ∧
    Wire.payload resp = b ∧
    Wire.header resp = ∅ ∧
    ∀ detect, Wire.contentType detect resp =
                if decide (b = EmptyString) then None else Some (detect b).
Proof.
  intros (_ & _ & [mq Hmq] & [mr Hmr]) Hpost Hf Hread.
  rewrite (SetPOSTResponseBody_some _ _ _ _ Hmr).
  set (key := postKey r (contents f)).
  set (s1 := set_httpPOSTResponses _ s).
  assert (Hq1 : httpPOSTRequests s1 = Some mq) by exact Hmq.
  assert (Hlook : GoMap.lookup (httpPOSTResponses s1) key
                  = Some {| StatusCode := StatusOK; Body := b |})
    by apply lookup_insert_eq.
  assert (Hafter : ∀ w, afterRead f w = w)
    by (intros w; unfold afterRead; by rewrite Hread).
  do 4 eexists. split; [reflexivity|].
  unfold handleRequest.
  rewrite decide_False by (by apply method_post_not_get).
  rewrite decide_True by done.
  rewrite (handlePostRequest_some _ _ _ _ _ Hf Hq1). fold key.
  rewrite Hlook, Hafter.
  split; [reflexivity|]. split; [reflexivity|].
  rewrite (serve_POST _ _ _ _ Hpost Hf Hq1). fold key.
  rewrite Hlook, Hafter. repeat split.
Qed.

Lemma post_registered_header_after_status_witness :
  initialized Sample.fresh ∧
  Method (Sample.upload "/upload" EmptyString "hello") = MethodPost ∧
  postKey (Sample.upload "/upload" EmptyString "hello") "hello" = "/upload? hello" ∧
  ∃ s1 s2 w resp,
    SetPOSTResponseBody "/upload? hello" "[]" Sample.fresh = (Ok (), s1) ∧
    handleRequest (Sample.upload "/upload" EmptyString "hello") (s1, newResponseWriter)
      = (Ok (), (s2, w)) ∧
    handlerHeader w !! "Content-Type" = Some ["application/json"] ∧
    (serve (Sample.upload "/upload" EmptyString "hello") s1).1 = Wire.Replied resp ∧
    Wire.code resp = 200 ∧
    Wire.payload resp = "[]" ∧
    Wire.header resp = ∅ ∧
    ∀ detect, Wire.contentType detect resp = Some (detect "[]").
Proof.
  split; [apply fresh_initialized|].
  split; [reflexivity|]. split; [reflexivity|].
  apply (post_registered_header_after_status Sample.fresh
           (Sample.upload "/upload" EmptyString "hello")
           {| contents := "hello"; readErr := None |} "[]").
  - apply fresh_initialized.
  - reflexivity.
  - reflexivity.
  - reflexivity.
Defined.

(** X5. When the file is there but its read fails with error [e], the POST
    handler writes the 500 of [http.Error] and goes on with the bytes it
    got: the request is recorded under the key made with those bytes, and
    the client receives status 500, the headers of [http.Error], and a body
    made of [e], a line feed, and then the text the handler writes next,
    the 404 message or the registered body, whose own status is dropped. *)
Theorem post_read_error_keeps_500
    (s : _Server) (r : Request) (f : File) (e : string) :
  initialized s →
  Method r = MethodPost →
  FormFile r "file" = (Some f, None) →
  readErr f = Some e →
  let key := Path (URL_ r) +:+ "?" +:+ RawQuery (URL_ r) +:+ " " +:+ contents f in
  ∃ resp,
    (serve r s).1 = Wire.Replied resp ∧
    Wire.code resp = 500 ∧
    Wire.header resp !! "Content-Type" = Some ["text/plain; charset=utf-8"] ∧
    Wire.header resp !! "X-Content-Type-Options" = Some ["nosniff"] ∧
    Wire.payload resp =
      (e +:+ newline) +:+
      match GoMap.lookup (httpPOSTResponses s) key with
      | None => "No httpPOSTResponse for '" +:+ key +:+ "'"
      | Some response => Body response
      end ∧
    GetPOSTRequests key (serve r s).2 = GetPOSTRequests key s ++ [r].
Proof.
  intros Hs Hpost Hf Hread key. fold (postKey r (contents f)) in key.
  assert (Hrec : GetPOSTRequests key (serve r s).2 = GetPOSTRequests key s ++ [r]).
  { rewrite serve_GetPOSTRequests by done. unfold capturedPOST.
    rewrite decide_True; [done|]. split; [done|]. by eapply recordedPostKey_file. }
  destruct Hs as (_ & _ & [mp Hmp] & _).
  rewrite (serve_POST _ _ _ _ Hpost Hf Hmp) in *. fold key in Hrec |- *.
  unfold afterRead. rewrite Hread.
  eexists. split; [reflexivity|].
  destruct (GoMap.lookup (httpPOSTResponses s) key); repeat split; exact Hrec.
Qed.

Lemma post_read_error_keeps_500_witness :
  initialized Scenario.configured ∧
  Method (Scenario.unreadable "/upload" EmptyString) = MethodPost ∧
  FormFile (Scenario.unreadable "/upload" EmptyString) "file"
    = (Some Scenario.truncated, None) ∧
  readErr Scenario.truncated = Some "unexpected EOF" ∧
  ∃ resp,
    (serve (Scenario.unreadable "/upload" EmptyString) Scenario.configured).1
      = Wire.Replied resp ∧
    Wire.code resp = 500 ∧
    Wire.header resp !! "Content-Type" = Some ["text/plain; charset=utf-8"] ∧
    Wire.header resp !! "X-Content-Type-Options" = Some ["nosniff"] ∧
    Wire.payload resp =
      ("unexpected EOF" +:+ newline) +:+ "No httpPOSTResponse for '/upload? he'" ∧
    GetPOSTRequests "/upload? he"
      (serve (Scenario.unreadable "/upload" EmptyString) Scenario.configured).2
      = [Scenario.unreadable "/upload" EmptyString].
Proof.
  assert (Hs : initialized Scenario.configured)
    by (repeat split; eexists; reflexivity).
  split; [exact Hs|].
  split; [reflexivity|]. split; [reflexivity|]. split; [reflexivity|].
  apply (post_read_error_keeps_500 Scenario.configured
           (Scenario.unreadable "/upload" EmptyString)
           Scenario.truncated "unexpected EOF" Hs);
    reflexivity.
Defined.

(** ** What a reply depends on *)

Section replies.
Implicit Types (c : Call) (cs : list Call) (r : Request) (s : _Server) (k : string).

(** The reply to a request is decided by the mappings of requests being
    nil or not and by the response stored under the key of the request. *)
Lemma serve_reply_ext r s s' :
  (is_Some (httpGETRequests s) ↔ is_Some (httpGETRequests s')) →
  (is_Some (httpPOSTRequests s) ↔ is_Some (httpPOSTRequests s')) →
  (Method r = MethodGet →
   GoMap.lookup (httpGETResponses s) (getKey r)
   = GoMap.lookup (httpGETResponses s') (getKey r)) →
  (∀ key, Method r = MethodPost → recordedPostKey r = Some key →
   GoMap.lookup (httpPOSTResponses s) key = GoMap.lookup (httpPOSTResponses s') key) →
  (serve r s).1 = (serve r s').1.
Proof.
  intros Hgq Hpq Hgr Hpr.
  destruct (serve_cases r s)
    as [(Hget & m & Hm & ->)|[(Hget & Hnil & ->)|[(Hpost & f & m & Hf & Hm & ->)
       |[(Hpost & f & Hf & Hnil & ->)|[(Hpost & e & Hf & ->)|(Hg & Hp & ->)]]]]].
  - destruct (proj1 Hgq (mk_is_Some _ _ Hm)) as [m' Hm'].
    rewrite (serve_GET _ _ _ Hget Hm'), <- (Hgr Hget). reflexivity.
  - assert (Hnil' : httpGETRequests s' = None).
    { apply eq_None_not_Some. intros H'. apply Hgq in H'.
      rewrite Hnil in H'. by destruct H'. }
    by rewrite serve_GET_nil.
  - destruct (proj1 Hpq (mk_is_Some _ _ Hm)) as [m' Hm'].
    rewrite (serve_POST _ _ _ _ Hpost Hf Hm'); simpl.
    rewrite <- (Hpr _ Hpost (recordedPostKey_file _ _ _ Hf)). reflexivity.
  - assert (Hnil' : httpPOSTRequests s' = None).
    { apply eq_None_not_Some. intros H'. apply Hpq in H'.
      rewrite Hnil in H'. by destruct H'. }
    by rewrite (serve_POST_nil _ _ _ Hpost Hf Hnil').
  - by rewrite (serve_POST_nofile _ _ _ Hpost Hf).
  - by rewrite serve_other.
Qed.

Lemma run_initialized cs s : initialized s → initialized (run cs s).2.
Proof.
  revert s. induction cs as [|c cs IH]; intros s Hs; [done|].
  pose proof (call_initialized c s Hs) as Hs'.
  rewrite run_cons. destruct (call c s) as [[[]|p] s']; simpl in *; [|done].
  by apply IH.
Qed.

(** On a server whose mappings exist no call panics. *)
Lemma call_initialized_ok c s : initialized s → (call c s).1 = Ok ().
Proof.
  intros (_ & [mg Hmg] & _ & [mp Hmp]).
  destruct c as [addr| | |key b|key b|r]; simpl; try reflexivity.
  - unfold bind. by rewrite Close_eq.
  - by rewrite (SetGETResponseBody_some _ _ _ _ Hmg).
  - by rewrite (SetPOSTResponseBody_some _ _ _ _ Hmp).
Qed.

Lemma run_initialized_ok cs s : initialized s → (run cs s).1 = Ok ().
Proof.
  revert s. induction cs as [|c cs IH]; intros s Hs; [done|].
  pose proof (call_initialized c s Hs) as Hs'.
  pose proof (call_initialized_ok c s Hs) as Hok.
  rewrite run_cons. destruct (call c s) as [[[]|p] s']; simpl in *; [|done].
  by apply IH.
Qed.

Lemma call_GET_response c s k :
  touchesGET k c = false →
  GoMap.lookup (httpGETResponses (call c s).2) k = GoMap.lookup (httpGETResponses s) k.
Proof.
  intros Hc. destruct c as [addr| | |key b|key b|r]; simpl in *; try done.
  - unfold bind. rewrite Close_eq. by destruct (server s).
  - apply bool_decide_eq_false in Hc.
    destruct (httpGETResponses s) as [m|] eqn:Hm.
    + rewrite (SetGETResponseBody_some _ _ _ _ Hm).
      unfold GoMap.lookup; simpl. by rewrite lookup_insert_ne.
    + rewrite SetGETResponseBody_nil by done. simpl. by rewrite Hm.
  - destruct (httpPOSTResponses s) as [m|] eqn:Hm.
    + by rewrite (SetPOSTResponseBody_some _ _ _ _ Hm).
    + by rewrite SetPOSTResponseBody_nil.
  - by destruct (serve_frame r s) as (_ & _ & -> & _).
Qed.

Lemma run_GET_response cs s k :
  Forall (λ c, touchesGET k c = false) cs →
  GoMap.lookup (httpGETResponses (run cs s).2) k = GoMap.lookup (httpGETResponses s) k.
Proof.
  intros Hcs. revert s. induction Hcs as [|c cs Hc _ IH]; intros s; [done|].
  pose proof (call_GET_response c s k Hc) as Hlook.
  rewrite run_cons. destruct (call c s) as [[[]|p] s']; simpl in *; [|done].
  by rewrite IH.
Qed.
End replies.

(** ** Registered responses over time *)

(** X6. A registered response is not used up: on a server whose mappings
    exist, after [SetGETResponseBody k b] and then any calls that are
    neither [Reset] nor a new registration for GET under [k] (listener
    calls, other registrations, inbound requests of any kind, matching ones
    included), no call has panicked and a GET with key [k] is still
    answered with status 200 and body [b]. *)
Theorem registered_response_stays
    (s : _Server) (k b : string) (cs : list Call) (r : Request) :
  initialized s →
  Forall (λ c, touchesGET k c = false) cs →
  Method r = MethodGet →
  getKey r = k →
  ∃ s1,
    SetGETResponseBody k b s = (Ok (), s1) ∧
    (run cs s1).1 = Ok () ∧
    (serve r (run cs s1).2).1 =
      Wire.Replied {| Wire.code := 200; Wire.header := ∅; Wire.payload := b |}.
Proof.
  intros Hs Hcs Hget Hk.
  pose proof (call_initialized (CallSetGET k b) s Hs) as Hs1.
  destruct Hs as (_ & [mr Hmr] & _). simpl in Hs1.
  rewrite (SetGETResponseBody_some _ _ _ _ Hmr) in *.
  eexists. split; [reflexivity|]. simpl in Hs1.
  split; [by apply run_initialized_ok|].
  pose proof (run_initialized cs _ Hs1) as ([mq Hmq] & _).
  rewrite (serve_GET _ _ _ Hget Hmq), Hk.
  rewrite (run_GET_response cs _ k Hcs). simpl.
  rewrite lookup_insert_eq. reflexivity.
Qed.

Lemma registered_response_stays_witness :
  initialized Scenario.configured ∧
  Forall (λ c, touchesGET "/a?" c = false) Scenario.traffic ∧
  ∃ s1,
    SetGETResponseBody "/a?" "true" Scenario.configured = (Ok (), s1) ∧
    (run Scenario.traffic s1).1 = Ok () ∧
    (serve (Sample.get "/a" EmptyString) (run Scenario.traffic s1).2).1 =
      Wire.Replied {| Wire.code := 200; Wire.header := ∅; Wire.payload := "true" |}.
Proof.
  assert (Hs : initialized Scenario.configured)
    by (repeat split; eexists; reflexivity).
  assert (Hcs : Forall (λ c, touchesGET "/a?" c = false) Scenario.traffic)
    by (repeat constructor).
  split; [exact Hs|]. split; [exact Hcs|].
  apply (registered_response_stays Scenario.configured "/a?" "true"
           Scenario.traffic (Sample.get "/a" EmptyString) Hs Hcs);
    reflexivity.
Defined.

(** X7. Registering a response under [k] changes the reply to no request
    other than the GET requests with key [k], POST requests with the same
    key text included; and likewise for [SetPOSTResponseBody] and the POST
    requests recorded under [k]. This holds in every state, the one where
    the registration panics included. *)
Theorem registration_leaves_other_replies (s : _Server) (k b : string) (r : Request) :
  (¬ (Method r = MethodGet ∧ getKey r = k) →
   (serve r (SetGETResponseBody k b s).2).1 = (serve r s).1) ∧
  (¬ (Method r = MethodPost ∧ recordedPostKey r = Some k) →
   (serve r (SetPOSTResponseBody k b s).2).1 = (serve r s).1).
Proof.
  split; intros Hnot.
  - destruct (httpGETResponses s) as [m|] eqn:Hm;
      [|by rewrite SetGETResponseBody_nil].
    rewrite (SetGETResponseBody_some _ _ _ _ Hm).
    apply serve_reply_ext; simpl; try done.
    intros Hget. rewrite Hm; simpl. rewrite lookup_insert_ne; [done|].
    intros Hk. by apply Hnot.
  - destruct (httpPOSTResponses s) as [m|] eqn:Hm;
      [|by rewrite SetPOSTResponseBody_nil].
    rewrite (SetPOSTResponseBody_some _ _ _ _ Hm).
    apply serve_reply_ext; simpl; try done.
    intros key Hpost Hkey. rewrite Hm; simpl. rewrite lookup_insert_ne; [done|].
    intros Hk. apply Hnot. by rewrite Hkey, Hk.
Qed.

Lemma registration_leaves_other_replies_witness :
  ¬ (Method (Sample.upload "/a" EmptyString "x") = MethodGet ∧
     getKey (Sample.upload "/a" EmptyString "x") = "/a?") ∧
  (serve (Sample.upload "/a" EmptyString "x")
     (SetGETResponseBody "/a?" "changed" Scenario.configured).2).1
  = (serve (Sample.upload "/a" EmptyString "x") Scenario.configured).1 ∧
  ¬ (Method (Sample.get "/a" EmptyString) = MethodPost ∧
     recordedPostKey (Sample.get "/a" EmptyString) = Some "/a?") ∧
  (serve (Sample.get "/a" EmptyString)
     (SetPOSTResponseBody "/a?" "changed" Scenario.configured).2).1
  = Wire.Replied {| Wire.code := 200; Wire.header := ∅; Wire.payload := "{}" |}.
Proof.
  assert (H1 : ¬ (Method (Sample.upload "/a" EmptyString "x") = MethodGet ∧
                  getKey (Sample.upload "/a" EmptyString "x") = "/a?"))
    by (intros [H _]; discriminate H).
  assert (H2 : ¬ (Method (Sample.get "/a" EmptyString) = MethodPost ∧
                  recordedPostKey (Sample.get "/a" EmptyString) = Some "/a?"))
    by (intros [H _]; discriminate H).
  split; [exact H1|].
  split; [exact (proj1 (registration_leaves_other_replies Scenario.configured
                          "/a?" "changed" (Sample.upload "/a" EmptyString "x")) H1)|].
  split; [exact H2|].
  exact (proj2 (registration_leaves_other_replies Scenario.configured
                  "/a?" "changed" (Sample.get "/a" EmptyString)) H2).
Defined.

(** ** Invariants of the states reached from [New] *)

Section invariants.
Implicit Types (c : Call) (cs : list Call) (r : Request) (s : _Server) (k : string).






(** One request adds itself to the captured requests of its key, or
    nothing. *)
Lemma serve_GetGETRequests_any r s k :
  GetGETRequests k (serve r s).2 = GetGETRequests k s ∨
  (GetGETRequests k (serve r s).2 = GetGETRequests k s ++ [r] ∧
   Method r = MethodGet ∧ getKey r = k).
Proof.
  destruct (decide (Method r = MethodGet ∧ getKey r = k)) as [[Hget Hk]|Hnot];
    [|left; by apply serve_GetGETRequests_other].
  destruct (httpGETRequests s) as [m|] eqn:Hm.
  - right. split; [|done]. rewrite (serve_GET _ _ _ Hget Hm).
    unfold GetGETRequests; simpl. by rewrite Hm, Hk, lookup_insert_eq.
  - left. by rewrite serve_GET_nil.
Qed.

Lemma serve_GetPOSTRequests_any r s k :
  GetPOSTRequests k (serve r s).2 = GetPOSTRequests k s ∨
  (GetPOSTRequests k (serve r s).2 = GetPOSTRequests k s ++ [r] ∧
   Method r = MethodPost ∧ recordedPostKey r = Some k).
Proof.
  destruct (decide (Method r = MethodPost ∧ recordedPostKey r = Some k))
    as [[Hpost Hk]|Hnot]; [|left; by apply serve_GetPOSTRequests_other].
  destruct (FormFile_cases r "file") as [[f Hf]|[e Hf]].
  - rewrite (recordedPostKey_file _ _ _ Hf) in Hk. injection Hk as Hk.
    destruct (httpPOSTRequests s) as [m|] eqn:Hm.
    + right. split; [|split; [done|]].
      * rewrite (serve_POST _ _ _ _ Hpost Hf Hm).
        unfold GetPOSTRequests; simpl. by rewrite Hm, Hk, lookup_insert_eq.
      * rewrite <- Hk. by eapply recordedPostKey_file.
    + left. by rewrite (serve_POST_nil _ _ _ Hpost Hf Hm).
  - left. by rewrite (serve_POST_nofile _ _ _ Hpost Hf).
Qed.

Lemma call_capturedOK c s : capturedOK s → capturedOK (call c s).2.
Proof.
  intros [Hg Hp]. destruct (call_requests c s) as [[r ->]|[->|[Hgq Hpq]]].
  - simpl. split; intros k r'.
    + destruct (serve_GetGETRequests_any r s k) as [->|(-> & Hm & Hk)]; [apply Hg|].
      intros [Hin|Hin%list_elem_of_singleton]%elem_of_app; [by apply Hg|by subst].
    + destruct (serve_GetPOSTRequests_any r s k) as [->|(-> & Hm & Hk)]; [apply Hp|].
      intros [Hin|Hin%list_elem_of_singleton]%elem_of_app; [by apply Hp|by subst].
  - split; intros k r' Hin; by apply elem_of_nil in Hin.
  - unfold capturedOK, GetGETRequests, GetPOSTRequests in *. by rewrite Hgq, Hpq.
Qed.

Lemma run_capturedOK cs s : capturedOK s → capturedOK (run cs s).2.
Proof.
  revert s. induction cs as [|c cs IH]; intros s Hs; [done|].
  pose proof (call_capturedOK c s Hs) as Hs'.
  rewrite run_cons. destruct (call c s) as [[[]|p] s']; simpl in *; [|done].
  by apply IH.
Qed.

Lemma New_capturedOK : capturedOK New.
Proof. split; intros k r Hin; by apply elem_of_nil in Hin. Qed.
End invariants.



Section reset_and_runs.
Implicit Types (c : Call) (cs : list Call) (s : _Server).

Lemma run_reset_initialized cs s0 s :
  run cs s0 = (Ok (), s) → CallReset ∈ cs → initialized s.
Proof.
  revert s0. induction cs as [|c cs IH]; intros s0 Hrun Hin.
  - by apply elem_of_nil in Hin.
  - rewrite run_cons in Hrun.
    destruct (call c s0) as [[[]|p] s1] eqn:Hc; [|discriminate Hrun].
    apply elem_of_cons in Hin as [<-|Hin]; [|by eapply IH].
    assert (Hs1 : initialized s1).
    { replace s1 with (call CallReset s0).2 by (by rewrite Hc).
      apply Reset_initialized. }
    pose proof (run_initialized cs s1 Hs1) as Hinit.
    by rewrite Hrun in Hinit.
Qed.
End reset_and_runs.

(** X9. For a sequence of calls made on [New] that completes without a
    panic of a method, the four mappings exist at the end if [Reset] is
    among the calls and are all nil if it is not: no state has some of the
    mappings only, and nothing but [Reset] makes them. *)
Theorem reset_decides_initialization (cs : list Call) (s : _Server) :
  run cs New = (Ok (), s) →
  (CallReset ∈ cs → initialized s) ∧
  (CallReset ∉ cs → uninitialized s).
Proof.
  intros Hrun. split; intros Hin.
  - by eapply run_reset_initialized.
  - pose proof (run_uninitialized cs New Hin New_uninitialized) as Hun.
    by rewrite Hrun in Hun.
Qed.

Lemma reset_decides_initialization_witness :
  run Sample.session New = (Ok (), (run Sample.session New).2) ∧
  initialized (run Sample.session New).2 ∧
  run Sample.unreset New = (Ok (), (run Sample.unreset New).2) ∧
  uninitialized (run Sample.unreset New).2.
Proof.
  assert (Hin : CallReset ∈ Sample.session).
  { apply elem_of_cons; right. apply elem_of_cons; by left. }
  assert (Hnot : CallReset ∉ Sample.unreset).
  { intros H. unfold Sample.unreset in H.
    repeat (apply elem_of_cons in H as [H|H]; [discriminate H|]).
    by apply elem_of_nil in H. }
  split; [reflexivity|].
  split; [exact (proj1 (reset_decides_initialization Sample.session _ eq_refl) Hin)|].
  split; [reflexivity|].
  exact (proj2 (reset_decides_initialization Sample.unreset _ eq_refl) Hnot).
Defined.

(** X10. In the states reached from [New] by any calls, every request that
    [GetGETRequests k] returns is a GET whose path, question mark and raw
    query make [k], and every request that [GetPOSTRequests k] returns is a
    POST with a file in the field [file] whose key, made with the contents
    of that file, is [k]: a request is never stored under the key or in the
    mapping of another. *)
Theorem captured_requests_are_keyed (cs : list Call) (k : string) (r : Request) :
  (r ∈ GetGETRequests k (run cs New).2 →
   Method r = MethodGet ∧ Path (URL_ r) +:+ "?" +:+ RawQuery (URL_ r) = k) ∧
  (r ∈ GetPOSTRequests k (run cs New).2 →
   Method r = MethodPost ∧
   ∃ f, (FormFile r "file").1 = Some f ∧
        Path (URL_ r) +:+ "?" +:+ RawQuery (URL_ r) +:+ " " +:+ contents f = k).
Proof.
  destruct (run_capturedOK cs New New_capturedOK) as [Hg Hp].
  split; intros Hin.
  - by apply Hg.
  - destruct (Hp k r Hin) as [Hpost Hkey]. split; [done|].
    unfold recordedPostKey in Hkey.
    destruct (FormFile r "file").1 as [f|]; [|discriminate Hkey].
    exists f. split; [done|]. by injection Hkey.
Qed.

Lemma captured_requests_are_keyed_witness :
  Sample.upload "/upload" EmptyString "hello"
    ∈ GetPOSTRequests "/upload? hello" (run Sample.session New).2 ∧
  Method (Sample.upload "/upload" EmptyString "hello") = MethodPost ∧
  ∃ f, (FormFile (Sample.upload "/upload" EmptyString "hello") "file").1 = Some f ∧
       "/upload" +:+ "?" +:+ EmptyString +:+ " " +:+ contents f = "/upload? hello".
Proof.
  assert (Hin : Sample.upload "/upload" EmptyString "hello"
                  ∈ GetPOSTRequests "/upload? hello" (run Sample.session New).2)
    by (apply elem_of_cons; by left).
  split; [exact Hin|].
  exact (proj2 (captured_requests_are_keyed Sample.session "/upload? hello"
                  (Sample.upload "/upload" EmptyString "hello")) Hin).
Defined.

(** ** The listener and the mappings *)

Section listener.
Implicit Types (c : Call) (cs : list Call) (r : Request) (s : _Server) (k : string).



Lemma call_url c s : isOpen c = false → url (call c s).2 = url s.
Proof.
  destruct c as [addr| | |key b|key b|r]; try discriminate; intros _; simpl.
  - unfold bind. rewrite Close_eq. by destruct (server s).
  - done.
  - destruct (httpGETResponses s) as [m|] eqn:Hm.
    + by rewrite (SetGETResponseBody_some _ _ _ _ Hm).
    + by rewrite SetGETResponseBody_nil.
  - destruct (httpPOSTResponses s) as [m|] eqn:Hm.
    + by rewrite (SetPOSTResponseBody_some _ _ _ _ Hm).
    + by rewrite SetPOSTResponseBody_nil.
  - by destruct (serve_frame r s) as (_ & -> & _).
Qed.

Lemma run_url cs s :
  Forall (λ c, isOpen c = false) cs → url (run cs s).2 = url s.
Proof.
  intros Hcs. revert s. induction Hcs as [|c cs Hc _ IH]; intros s; [done|].
  pose proof (call_url c s Hc) as Hu.
  rewrite run_cons. destruct (call c s) as [[[]|p] s']; simpl in *; [|done].
  by rewrite IH.
Qed.
End listener.



(** X12. [URL] returns the address of the last [Open]: after [Open] with
    address [addr] and any calls that are not [Open], [Close] and [Reset]
    included, it returns the URL of scheme http and host [addr] with empty
    path and query; on a server that was never opened it dereferences a nil
    pointer, whatever else was called. *)
Theorem url_is_last_open (addr : string) (cs : list Call) (s : _Server) :
  Forall (λ c, isOpen c = false) cs →
  URL_of (run cs (Open addr s).2).2 =
    (Ok {| Scheme := "http"; Host := addr; Path := EmptyString; RawQuery := EmptyString |},
     (run cs (Open addr s).2).2) ∧
  URL_of (run cs New).2 = (Panic NilDereference, (run cs New).2).
Proof.
  intros Hcs. split.
  - pose proof (run_url cs (Open addr s).2 Hcs) as Hu.
    unfold URL_of, bind, get; simpl in *. by rewrite Hu.
  - pose proof (run_url cs New Hcs) as Hu.
    unfold URL_of, bind, get; simpl in *. by rewrite Hu.
Qed.

Lemma url_is_last_open_witness :
  Forall (λ c, isOpen c = false) Scenario.busy ∧
  (URL_of (run Scenario.busy (Open "127.0.0.1:8080" New).2).2).1 =
    Ok {| Scheme := "http"; Host := "127.0.0.1:8080";
          Path := EmptyString; RawQuery := EmptyString |} ∧
  (URL_of (run Scenario.busy New).2).1 = Panic NilDereference.
Proof.
  assert (Hcs : Forall (λ c, isOpen c = false) Scenario.busy)
    by (repeat constructor).
  destruct (url_is_last_open "127.0.0.1:8080" Scenario.busy New Hcs) as [Hopen Hnil].
  split; [exact Hcs|].
  split; [by rewrite Hopen|by rewrite Hnil].
Defined.

(** ** Reset between tests *)

Section isolation.
Implicit Types (c : Call) (cs : list Call) (r : Request) (s : _Server).

Lemma sameData_set_server s s' :
  sameData s s' → s' = set_server (server s') (url s') s.
Proof.
  destruct s, s'. unfold sameData; simpl. by intros (-> & -> & -> & ->).
Qed.

Lemma set_server_sameData s sv u : sameData s (set_server sv u s).
Proof. done. Qed.

Lemma serve_set_server r s sv u :
  serve r (set_server sv u s) = ((serve r s).1, set_server sv u (serve r s).2).
Proof.
  destruct (serve_cases r s)
    as [(Hget & m & Hm & ->)|[(Hget & Hnil & ->)|[(Hpost & f & m & Hf & Hm & ->)
       |[(Hpost & f & Hf & Hnil & ->)|[(Hpost & e & Hf & ->)|(Hg & Hp & ->)]]]]].
  - by rewrite (serve_GET r (set_server sv u s) m Hget Hm).
  - by rewrite (serve_GET_nil r (set_server sv u s) Hget Hnil).
  - by rewrite (serve_POST r (set_server sv u s) f m Hpost Hf Hm).
  - by rewrite (serve_POST_nil r (set_server sv u s) f Hpost Hf Hnil).
  - by rewrite (serve_POST_nofile r (set_server sv u s) e Hpost Hf).
  - by rewrite serve_other.
Qed.

Lemma call_sameData c s s' :
  sameData s s' →
  (call c s).1 = (call c s').1 ∧ sameData (call c s).2 (call c s').2.
Proof.
  intros Hss. rewrite (sameData_set_server _ _ Hss).
  generalize (server s') (url s'). intros sv u. clear s' Hss.
  destruct c as [addr| | |key b|key b|r]; simpl.
  - done.
  - unfold bind. rewrite !Close_eq. simpl.
    by destruct (server s), sv.
  - done.
  - destruct (httpGETResponses s) as [m|] eqn:Hm.
    + rewrite (SetGETResponseBody_some _ _ s m Hm).
      by rewrite (SetGETResponseBody_some _ _ (set_server sv u s) m Hm).
    + rewrite (SetGETResponseBody_nil _ _ s Hm).
      by rewrite (SetGETResponseBody_nil _ _ (set_server sv u s) Hm).
  - destruct (httpPOSTResponses s) as [m|] eqn:Hm.
    + rewrite (SetPOSTResponseBody_some _ _ s m Hm).
      by rewrite (SetPOSTResponseBody_some _ _ (set_server sv u s) m Hm).
    + rewrite (SetPOSTResponseBody_nil _ _ s Hm).
      by rewrite (SetPOSTResponseBody_nil _ _ (set_server sv u s) Hm).
  - unfold modify; simpl. rewrite serve_set_server. done.
Qed.

Lemma run_sameData cs s s' :
  sameData s s' →
  (run cs s).1 = (run cs s').1 ∧ sameData (run cs s).2 (run cs s').2.
Proof.
  revert s s'. induction cs as [|c cs IH]; intros s s' Hss; [done|].
  destruct (call_sameData c s s' Hss) as [Hres Hss'].
  rewrite !run_cons.
  destruct (call c s) as [[[]|p] t], (call c s') as [[[]|p'] t'];
    simpl in *; try discriminate Hres.
  - by apply IH.
  - done.
Qed.

Lemma Reset_sameData s s' : sameData (Reset s).2 (Reset s').2.
Proof. by rewrite !Reset_eq. Qed.
End isolation.

(** X13. [Reset] makes the server forget: run the same calls after a
    [Reset], on two servers with any two pasts. The calls panic or not
    alike, both servers end with the same captured requests under every
    key, and they give every further request the same reply. *)
Theorem reset_isolates (s s' : _Server) (cs : list Call) (r : Request) :
  (run cs (Reset s).2).1 = (run cs (Reset s').2).1 ∧
  (∀ k, GetGETRequests k (run cs (Reset s).2).2
        = GetGETRequests k (run cs (Reset s').2).2) ∧
  (∀ k, GetPOSTRequests k (run cs (Reset s).2).2
        = GetPOSTRequests k (run cs (Reset s').2).2) ∧
  (serve r (run cs (Reset s).2).2).1 = (serve r (run cs (Reset s').2).2).1.
Proof.
  destruct (run_sameData cs _ _ (Reset_sameData s s'))
    as (Hres & Hgq & Hgr & Hpq & Hpr).
  split; [exact Hres|].
  split; [intros k; unfold GetGETRequests; by rewrite Hgq|].
  split; [intros k; unfold GetPOSTRequests; by rewrite Hpq|].
  apply serve_reply_ext; by rewrite ?Hgq, ?Hgr, ?Hpq, ?Hpr.
Qed.

(** ** Order of registrations *)

(** X14. In a state where the four mappings are all nil or all made, as
    every state reached from [New] is, registrations under different keys
    can be made in either order, and so can a GET and a POST registration
    under any keys: the two orders panic or not alike and leave the same
    server. *)
Theorem registrations_commute (s : _Server) (k1 b1 k2 b2 : string) :
  uninitialized s ∨ initialized s →
  (k1 ≠ k2 →
   run [CallSetGET k1 b1; CallSetGET k2 b2] s
   = run [CallSetGET k2 b2; CallSetGET k1 b1] s) ∧
  (k1 ≠ k2 →
   run [CallSetPOST k1 b1; CallSetPOST k2 b2] s
   = run [CallSetPOST k2 b2; CallSetPOST k1 b1] s) ∧
  run [CallSetGET k1 b1; CallSetPOST k2 b2] s
  = run [CallSetPOST k2 b2; CallSetGET k1 b1] s.
Proof.
  intros Hs.
  unfold run, call, SetGETResponseBody, SetPOSTResponseBody,
    bind, get, try, put, ret, raise, GoMap.assign.
  split; [|split].
  - intros Hne. simpl. destruct (httpGETResponses s) as [m|]; simpl; [|done].
    unfold set_httpGETResponses; simpl. by rewrite insert_insert_ne.
  - intros Hne. simpl. destruct (httpPOSTResponses s) as [m|]; simpl; [|done].
    unfold set_httpPOSTResponses; simpl. by rewrite insert_insert_ne.
  - destruct Hs as [(_ & Hg & _ & Hp)|(_ & [mg Hg] & _ & [mp Hp])];
      simpl; rewrite Hg, Hp; simpl; rewrite ?Hg, ?Hp; done.
Qed.

Lemma registrations_commute_witness :
  (uninitialized Scenario.configured ∨ initialized Scenario.configured) ∧
  run [CallSetGET "/a?" "1"; CallSetGET "/b?" "2"] Scenario.configured
  = run [CallSetGET "/b?" "2"; CallSetGET "/a?" "1"] Scenario.configured ∧
  run [CallSetGET "/a?" "1"; CallSetPOST "/a?" "2"] Scenario.configured
  = run [CallSetPOST "/a?" "2"; CallSetGET "/a?" "1"] Scenario.configured.
Proof.
  assert (Hs : uninitialized Scenario.configured ∨ initialized Scenario.configured)
    by (right; repeat split; eexists; reflexivity).
  assert (Hne : "/a?" ≠ "/b?") by discriminate.
  split; [exact Hs|].
  split; [exact (proj1 (registrations_commute Scenario.configured
                          "/a?" "1" "/b?" "2" Hs) Hne)|].
  exact (proj2 (proj2 (registrations_commute Scenario.configured
                         "/a?" "1" "/a?" "2" Hs))).
Defined.
